(** * valyq: the validation front-end and the single-test prompt template

    A shallow embedding of
    - [validation_frontend/src/components/FormComponent.js] (the React state
      cells of [FormComponent], its event handlers and the parts of its
      render function that gate user input),
    - [validation_frontend/src/components/ui/file-input.jsx] ([FileInput]),
    - the [TestConversation] component (follow-up form),
    - [independent_test_template] of [templates.yaml].

    React state is modelled by explicit state passing: every handler is a
    function on the record [State].  An [async] handler is split at its
    [await fetch(...)]: the part before the await ([_begin]) returns the new
    state and the request it sends, the part after it ([_settle]) takes the
    outcome of the request.  Every [setX(prev => ...)] of the source is an
    updater applied to the state current at that moment, which is what the
    split keeps. *)

From Stdlib Require Import ZArith String Ascii List Bool Lia Wf_nat.
From stdpp Require Import base list strings pretty gmap.

Open Scope Z_scope.

(** ** JavaScript values *)

(** Primitive values.  Numbers that occur here (local ids, HTTP status codes,
    identifiers in JSON payloads) are integers; NaN and fractions do not
    occur. *)
Inductive prim :=
| PUndefined
| PNull
| PBool (b : bool)
| PNum (n : Z)
| PStr (s : string).

(** A JSON payload value: a primitive, an array or an object (fields in
    insertion order).  [JPrim PUndefined] stands for a property that is
    absent: reading an absent property yields [undefined]. *)
#[local] Unset Elimination Schemes.
Inductive json :=
| JPrim (p : prim)
| JArr (items : list json)
| JObj (fields : list (string * json)).
#[local] Set Elimination Schemes.

#[global] Instance prim_eq_dec : EqDecision prim.
Proof. solve_decision. Defined.

(** [ToBoolean]. *)
Definition truthy_prim (p : prim) : bool :=
  match p with
  | PUndefined | PNull => false
  | PBool b => b
  | PNum n => negb (n =? 0)
  | PStr s => negb (String.eqb s "")
  end.

Definition truthy (v : json) : bool :=
  match v with
  | JPrim p => truthy_prim p
  | JArr _ | JObj _ => true
  end.

(** [a || b] *)
Definition prim_or (a b : prim) : prim := if truthy_prim a then a else b.
Definition js_or (a b : json) : json := if truthy a then a else b.

(** Conversion to string inside a template literal. *)
Definition to_string (p : prim) : string :=
  match p with
  | PUndefined => "undefined"
  | PNull => "null"
  | PBool true => "true"
  | PBool false => "false"
  | PNum n => pretty n
  | PStr s => s
  end.

Definition is_undefined (v : json) : bool :=
  match v with JPrim PUndefined => true | _ => false end.

(** The keys [JSON.stringify] writes for an object: a property whose value
    is [undefined] is left out. *)
Definition JSON_stringify_fields (obj : list (string * json)) : list (string * json) :=
  List.filter (fun kv => negb (is_undefined (snd kv))) obj.

(** Property read [obj.key] on a list of fields. *)
Fixpoint get_field (key : string) (obj : list (string * json)) : json :=
  match obj with
  | [] => JPrim PUndefined
  | (k, v) :: rest => if String.eqb k key then v else get_field key rest
  end.

Definition has_key (key : string) (obj : list (string * json)) : bool :=
  existsb (fun kv => String.eqb (fst kv) key) obj.

(** [String.prototype.trim].  A string stands for its UTF-8 bytes.  The
    characters removed are the white space and line terminators of
    JavaScript: U+0009 to U+000D, U+0020, U+00A0, U+FEFF, U+2028, U+2029 and
    the other space separators U+1680, U+2000 to U+200A, U+202F, U+205F and
    U+3000, each as the one, two or three bytes that encode it. *)
Definition byte_code (a : ascii) : Z := Z.of_N (N_of_ascii a).

Definition whitespace1 (a : ascii) : bool :=
  ((9 <=? byte_code a) && (byte_code a <=? 13)) || (byte_code a =? 32).

Definition whitespace2 (a b : ascii) : bool :=
  (byte_code a =? 194) && (byte_code b =? 160).

Definition whitespace3 (a b c : ascii) : bool :=
  ((byte_code a =? 225) && (byte_code b =? 154) && (byte_code c =? 128))
  || ((byte_code a =? 226) && (byte_code b =? 128)
      && (((128 <=? byte_code c) && (byte_code c <=? 138))
          || (byte_code c =? 168) || (byte_code c =? 169) || (byte_code c =? 175)))
  || ((byte_code a =? 226) && (byte_code b =? 129) && (byte_code c =? 159))
  || ((byte_code a =? 227) && (byte_code b =? 128) && (byte_code c =? 128))
  || ((byte_code a =? 239) && (byte_code b =? 187) && (byte_code c =? 191)).

(** The rest of [s] after one leading white-space character, if it starts
    with one. *)
Definition leading_whitespace (s : string) : option string :=
  match s with
  | EmptyString => None
  | String a r1 =>
      if whitespace1 a then Some r1
      else
        match r1 with
        | EmptyString => None
        | String b r2 =>
            if whitespace2 a b then Some r2
            else
              match r2 with
              | EmptyString => None
              | String c r3 => if whitespace3 a b c then Some r3 else None
              end
        end
  end.

Fixpoint trimStart (s : string) : string :=
  match s with
  | EmptyString => EmptyString
  | String a r1 =>
      if whitespace1 a then trimStart r1
      else
        match r1 with
        | EmptyString => s
        | String b r2 =>
            if whitespace2 a b then trimStart r2
            else
              match r2 with
              | EmptyString => s
              | String c r3 => if whitespace3 a b c then trimStart r3 else s
              end
        end
  end.

(** [s] consists of white-space characters only. *)
Fixpoint all_whitespace (s : string) : bool :=
  match s with
  | EmptyString => true
  | String a r1 =>
      if whitespace1 a then all_whitespace r1
      else
        match r1 with
        | EmptyString => false
        | String b r2 =>
            if whitespace2 a b then all_whitespace r2
            else
              match r2 with
              | EmptyString => false
              | String c r3 => if whitespace3 a b c then all_whitespace r3 else false
              end
        end
  end.

(** The longest suffix made of white-space characters is cut off. *)
Fixpoint trimEnd (s : string) : string :=
  match s with
  | EmptyString => EmptyString
  | String a rest => if all_whitespace s then EmptyString else String a (trimEnd rest)
  end.

Definition trim (s : string) : string := trimStart (trimEnd s).

(** ** Outcome of [await fetch(...)] followed by reading the body *)

(** [FetchOk]: [response.ok] holds and the body was read.  [FetchNotOk]:
    the response arrived with [response.ok] false.  [FetchThrew]: [fetch]
    or [response.json()] rejected with an error carrying [message]. *)
Inductive FetchOutcome (A : Type) :=
| FetchOk (body : A)
| FetchNotOk (status : Z)
| FetchThrew (message : string).
Arguments FetchOk {A} body.
Arguments FetchNotOk {A} status.
Arguments FetchThrew {A} message.

(** The [try] block shared by the handlers: [if (!response.ok) throw new
    Error(`HTTP error! status: ${response.status}`)], then the body.
    The left injection is the [message] of the error that reaches [catch]. *)
Definition try_response {A} (o : FetchOutcome A) : string + A :=
  match o with
  | FetchOk body => inr body
  | FetchNotOk status => inl ("HTTP error! status: " +:+ pretty status)
  | FetchThrew message => inl message
  end.

(** How an [async] function ends. *)
Inductive Completion :=
| Resolved
| Rejected (message : string).

(** ** Requests *)

Record File := { file_name : string; file_blob : N }.

Inductive Body :=
| NoBody
| JsonBody (obj : list (string * json))
| FormBody (modelDocumentation : string) (parts : list (string * File)).

Record Request := {
  req_method : string;
  req_url : string;
  req_body : Body
}.

(** ** Tests shown in the tabs *)

Module Test.
Record t := mk {
  id : Z;
  test_id : prim;
  title : json;
  description : json;
  prompt : json;
  results : json;
  testCode : json;
  conversation : json;
  isProcessing : bool;
  error : string
}.
End Test.

(** Body of the [/execute-test] response. *)
Record ExecResult := {
  r_test_id : prim;
  r_results : json;
  r_testCode : json;
  r_conversation : json
}.

(** One entry of the [/tests/<id>] response. *)
Record TestData := {
  td_test_id : prim;
  td_title : json;
  td_description : json;
  td_prompt : json;
  td_results : json;
  td_code : json;
  td_conversation : json
}.

(** Body of the [/load-validation/<id>] response; [vr_files] is [None] when
    [validationResult.files] is falsy. *)
Record ValidationResult := {
  vr_validation_id : prim;
  vr_execution_id : prim;
  vr_files : option (gmap string json)
}.

(** Body of the [/create-validation] response. *)
Record CreateResult := {
  cr_validation_id : prim;
  cr_execution_id : prim
}.

(** ** The state cells of [FormComponent]

    One field per [useState] cell, with the source's names.  [formData] is
    the [modelDocumentation] text; [files] and [fileNames] are the objects
    indexed by the name of a file input; [testToDelete] is [None] for
    [null] (and for the [undefined] of a failed [find]). *)
Record State := mkState {
  formData : string;
  files : gmap string File;
  fileNames : gmap string json;
  validationId : prim;
  executionId : prim;
  isCreating : bool;
  error : string;
  status : string;
  loadValidationId : string;
  showLoadForm : bool;
  testToDelete : option Test.t;
  customTests : list Test.t;
  activeTab : string;
  nextTestId : Z;
  showLoadDialog : bool;
  isGeneratingReport : bool
}.

(** [setX(v)]: one setter per cell. *)
Definition set_formData (v : string) (st : State) : State :=
  mkState v (files st) (fileNames st) (validationId st) (executionId st)
    (isCreating st) (error st) (status st) (loadValidationId st)
    (showLoadForm st) (testToDelete st) (customTests st) (activeTab st)
    (nextTestId st) (showLoadDialog st) (isGeneratingReport st).

Definition set_files (v : gmap string File) (st : State) : State :=
  mkState (formData st) v (fileNames st) (validationId st) (executionId st)
    (isCreating st) (error st) (status st) (loadValidationId st)
    (showLoadForm st) (testToDelete st) (customTests st) (activeTab st)
    (nextTestId st) (showLoadDialog st) (isGeneratingReport st).

Definition set_fileNames (v : gmap string json) (st : State) : State :=
  mkState (formData st) (files st) v (validationId st) (executionId st)
    (isCreating st) (error st) (status st) (loadValidationId st)
    (showLoadForm st) (testToDelete st) (customTests st) (activeTab st)
    (nextTestId st) (showLoadDialog st) (isGeneratingReport st).

Definition set_validationId (v : prim) (st : State) : State :=
  mkState (formData st) (files st) (fileNames st) v (executionId st)
    (isCreating st) (error st) (status st) (loadValidationId st)
    (showLoadForm st) (testToDelete st) (customTests st) (activeTab st)
    (nextTestId st) (showLoadDialog st) (isGeneratingReport st).

Definition set_executionId (v : prim) (st : State) : State :=
  mkState (formData st) (files st) (fileNames st) (validationId st) v
    (isCreating st) (error st) (status st) (loadValidationId st)
    (showLoadForm st) (testToDelete st) (customTests st) (activeTab st)
    (nextTestId st) (showLoadDialog st) (isGeneratingReport st).

Definition set_isCreating (v : bool) (st : State) : State :=
  mkState (formData st) (files st) (fileNames st) (validationId st)
    (executionId st) v (error st) (status st) (loadValidationId st)
    (showLoadForm st) (testToDelete st) (customTests st) (activeTab st)
    (nextTestId st) (showLoadDialog st) (isGeneratingReport st).

Definition set_error (v : string) (st : State) : State :=
  mkState (formData st) (files st) (fileNames st) (validationId st)
    (executionId st) (isCreating st) v (status st) (loadValidationId st)
    (showLoadForm st) (testToDelete st) (customTests st) (activeTab st)
    (nextTestId st) (showLoadDialog st) (isGeneratingReport st).

Definition set_status (v : string) (st : State) : State :=
  mkState (formData st) (files st) (fileNames st) (validationId st)
    (executionId st) (isCreating st) (error st) v (loadValidationId st)
    (showLoadForm st) (testToDelete st) (customTests st) (activeTab st)
    (nextTestId st) (showLoadDialog st) (isGeneratingReport st).

Definition set_loadValidationId (v : string) (st : State) : State :=
  mkState (formData st) (files st) (fileNames st) (validationId st)
    (executionId st) (isCreating st) (error st) (status st) v (showLoadForm
    st) (testToDelete st) (customTests st) (activeTab st) (nextTestId st)
    (showLoadDialog st) (isGeneratingReport st).

Definition set_showLoadForm (v : bool) (st : State) : State :=
  mkState (formData st) (files st) (fileNames st) (validationId st)
    (executionId st) (isCreating st) (error st) (status st)
    (loadValidationId st) v (testToDelete st) (customTests st) (activeTab
    st) (nextTestId st) (showLoadDialog st) (isGeneratingReport st).

Definition set_testToDelete (v : option Test.t) (st : State) : State :=
  mkState (formData st) (files st) (fileNames st) (validationId st)
    (executionId st) (isCreating st) (error st) (status st)
    (loadValidationId st) (showLoadForm st) v (customTests st) (activeTab
    st) (nextTestId st) (showLoadDialog st) (isGeneratingReport st).

Definition set_customTests (v : list Test.t) (st : State) : State :=
  mkState (formData st) (files st) (fileNames st) (validationId st)
    (executionId st) (isCreating st) (error st) (status st)
    (loadValidationId st) (showLoadForm st) (testToDelete st) v (activeTab
    st) (nextTestId st) (showLoadDialog st) (isGeneratingReport st).

Definition set_activeTab (v : string) (st : State) : State :=
  mkState (formData st) (files st) (fileNames st) (validationId st)
    (executionId st) (isCreating st) (error st) (status st)
    (loadValidationId st) (showLoadForm st) (testToDelete st) (customTests
    st) v (nextTestId st) (showLoadDialog st) (isGeneratingReport st).

Definition set_nextTestId (v : Z) (st : State) : State :=
  mkState (formData st) (files st) (fileNames st) (validationId st)
    (executionId st) (isCreating st) (error st) (status st)
    (loadValidationId st) (showLoadForm st) (testToDelete st) (customTests
    st) (activeTab st) v (showLoadDialog st) (isGeneratingReport st).

Definition set_showLoadDialog (v : bool) (st : State) : State :=
  mkState (formData st) (files st) (fileNames st) (validationId st)
    (executionId st) (isCreating st) (error st) (status st)
    (loadValidationId st) (showLoadForm st) (testToDelete st) (customTests
    st) (activeTab st) (nextTestId st) v (isGeneratingReport st).

Definition set_isGeneratingReport (v : bool) (st : State) : State :=
  mkState (formData st) (files st) (fileNames st) (validationId st)
    (executionId st) (isCreating st) (error st) (status st)
    (loadValidationId st) (showLoadForm st) (testToDelete st) (customTests
    st) (activeTab st) (nextTestId st) (showLoadDialog st) v.

(** The object with an empty name for each of the five artifacts: the
    initial value of [fileNames], and the fallback of [handleLoadValidation]. *)
Definition defaultFileNames : gmap string json :=
  list_to_map [("documentation", JPrim (PStr "")); ("trainingScript", JPrim (PStr ""));
               ("trainedModel", JPrim (PStr "")); ("trainingDataset", JPrim (PStr ""));
               ("testDataset", JPrim (PStr ""))].

(** The initial values of the cells.  In [files] an artifact that is [null]
    has no entry. *)
Definition initialState : State :=
  mkState "" ∅ defaultFileNames PNull PNull false "" "" "" false None [] "main" 1
    false false.

(** ** Object spreads over a test *)

(** [{ ...t, isProcessing: true, error: '' }] *)
Definition spread_processing (t : Test.t) : Test.t :=
  Test.mk (Test.id t) (Test.test_id t) (Test.title t) (Test.description t)
    (Test.prompt t) (Test.results t) (Test.testCode t) (Test.conversation t)
    true "".

(** [{ ...t, isProcessing: true }] *)
Definition spread_followUp_processing (t : Test.t) : Test.t :=
  Test.mk (Test.id t) (Test.test_id t) (Test.title t) (Test.description t)
    (Test.prompt t) (Test.results t) (Test.testCode t) (Test.conversation t)
    true (Test.error t).

(** [{ ...t, test_id: result.test_id, results: result.results, testCode:
    result.testCode, conversation: result.conversation, isProcessing: false,
    error: '' }] *)
Definition spread_result (result : ExecResult) (t : Test.t) : Test.t :=
  Test.mk (Test.id t) (r_test_id result) (Test.title t) (Test.description t)
    (Test.prompt t) (r_results result) (r_testCode result)
    (r_conversation result) false "".

(** [{ ...t, error: error.message, isProcessing: false }] *)
Definition spread_error (message : string) (t : Test.t) : Test.t :=
  Test.mk (Test.id t) (Test.test_id t) (Test.title t) (Test.description t)
    (Test.prompt t) (Test.results t) (Test.testCode t) (Test.conversation t)
    false message.

(** [{ ...test, title: value }] and [{ ...test, description: value }] *)
Definition spread_title (value : string) (t : Test.t) : Test.t :=
  Test.mk (Test.id t) (Test.test_id t) (JPrim (PStr value)) (Test.description t)
    (Test.prompt t) (Test.results t) (Test.testCode t) (Test.conversation t)
    (Test.isProcessing t) (Test.error t).

Definition spread_description (value : string) (t : Test.t) : Test.t :=
  Test.mk (Test.id t) (Test.test_id t) (Test.title t) (JPrim (PStr value))
    (Test.prompt t) (Test.results t) (Test.testCode t) (Test.conversation t)
    (Test.isProcessing t) (Test.error t).

(** [prev.map(t => t.id === testId ? f(t) : t)] *)
Definition update_test (testId : Z) (f : Test.t -> Test.t) (prev : list Test.t) : list Test.t :=
  (fun t => if Z.eqb (Test.id t) testId then f t else t) <$> prev.

(** [customTests.find(t => t.id === testId)] *)
Definition find_test (testId : Z) (tests : list Test.t) : option Test.t :=
  List.find (fun t => Z.eqb (Test.id t) testId) tests.

(** ** Handlers of [FormComponent] *)

(** [handleFileChange]: [name] is [e.target.name], [fileList] is
    [e.target.files]. *)
Definition handleFileChange (name : string) (fileList : list File) (st : State) : State :=
  match fileList with
  | [] => st
  | file :: _ =>
      set_fileNames (<[name := JPrim (PStr (file_name file))]> (fileNames st))
        (set_files (<[name := file]> (files st)) st)
  end.

Definition handleLoadDialogOpen (st : State) : State := set_showLoadDialog true st.

(** [addCustomTest] *)
Definition newTest (nextTestId : Z) : Test.t :=
  Test.mk nextTestId PUndefined
    (JPrim (PStr ("Custom Test " +:+ pretty nextTestId)))
    (JPrim (PStr ""))
    (JPrim PUndefined) (JPrim PUndefined) (JPrim PUndefined) (JPrim PUndefined)
    false "".

Definition addCustomTest (st : State) : State :=
  let newTest := newTest (nextTestId st) in
  set_activeTab ("test-" +:+ pretty (Test.id newTest))
    (set_nextTestId (nextTestId st + 1)
       (set_customTests (customTests st ++ [newTest]) st)).

Definition handleTestTitleChange (testId : Z) (value : string) (st : State) : State :=
  set_customTests (update_test testId (spread_title value) (customTests st)) st.

Definition handleTestDescriptionChange (testId : Z) (value : string) (st : State) : State :=
  set_customTests (update_test testId (spread_description value) (customTests st)) st.

(** [removeCustomTest]: opens the confirmation dialog. *)
Definition removeCustomTest (testId : Z) (st : State) : State :=
  set_testToDelete (find_test testId (customTests st)) st.

(** *** [handleTestSubmit] *)

(** The object [requestBody], fields in the order they are assigned. *)
Definition requestBody (validationId : prim) (test : Test.t) (testId : Z)
    (followUpMessage : prim) : list (string * json) :=
  [("validation_id", JPrim validationId);
   ("test_id", JPrim (prim_or (Test.test_id test) (PNum testId)))]
  ++ (if negb (truthy_prim (Test.test_id test))
      then [("description", Test.description test)] else [])
  ++ (if truthy_prim followUpMessage
      then [("follow_up_message", JPrim followUpMessage)] else []).

(** The part of [handleTestSubmit] before [await fetch].  [closure] is the
    state of the render that created the handler ([customTests] and
    [validationId] are read from it); [st] is the state the updater is
    applied to.  [followUpMessage] is [PNull] when the argument is left
    out.  The result is the new state and the request, [None] when the
    guard returns early. *)
Definition handleTestSubmit_begin (closure : State) (testId : Z)
    (followUpMessage : prim) (st : State) : State * option Request :=
  match find_test testId (customTests closure) with
  | None => (st, None)
  | Some test =>
      if negb (truthy_prim (validationId closure)) then (st, None)
      else
        (set_customTests (update_test testId spread_processing (customTests st)) st,
         Some {| req_method := "POST";
                 req_url := "/execute-test";
                 req_body := JsonBody (requestBody (validationId closure) test
                                         testId followUpMessage) |})
  end.

(** The part after the await: the rest of the [try] block, or [catch].
    Both end normally, so the promise of [handleTestSubmit] resolves. *)
Definition handleTestSubmit_settle (testId : Z) (outcome : FetchOutcome ExecResult)
    (st : State) : State * Completion :=
  match try_response outcome with
  | inr result =>
      (set_customTests (update_test testId (spread_result result) (customTests st)) st,
       Resolved)
  | inl message =>
      (set_customTests (update_test testId (spread_error message) (customTests st)) st,
       Resolved)
  end.

(** [onSubmitFollowUp], the callback [renderTestTab] passes to
    [TestConversation]: it marks the test as processing and awaits
    [handleTestSubmit(test.id, message)] inside its own [try]/[catch]. *)
Definition onSubmitFollowUp_begin (closure : State) (test : Test.t) (message : string)
    (st : State) : State * option Request :=
  handleTestSubmit_begin closure (Test.id test) (PStr message)
    (set_customTests
       (update_test (Test.id test) spread_followUp_processing (customTests st)) st).

Definition onSubmitFollowUp_settle (test : Test.t) (outcome : FetchOutcome ExecResult)
    (st : State) : State * Completion :=
  match handleTestSubmit_settle (Test.id test) outcome st with
  | (st', Resolved) => (st', Resolved)
  | (st', Rejected message) =>
      (set_customTests
         (update_test (Test.id test) (spread_error message) (customTests st')) st',
       Resolved)
  end.

(** *** [handleDeleteTest] and [confirmDelete] *)

(** The request of [handleDeleteTest(testId)]; [None] when [!testId]. *)
Definition handleDeleteTest_begin (closure : State) (testId : prim) : option Request :=
  if negb (truthy_prim testId) then None
  else Some {| req_method := "DELETE";
               req_url := "/test/" +:+ to_string (validationId closure) +:+ "/"
                          +:+ to_string testId;
               req_body := NoBody |}.

(** After the await.  The body of the response is not read.  The filter
    keeps the tests with [test.test_id !== testId]. *)
Definition handleDeleteTest_settle (testId : prim) (outcome : FetchOutcome unit)
    (st : State) : State :=
  match try_response outcome with
  | inr _ =>
      set_status "Test deleted successfully"
        (set_activeTab "main"
           (set_customTests
              (filter (fun test => Test.test_id test <> testId) (customTests st))
              st))
  | inl message => set_error ("Error deleting test: " +:+ message) st
  end.

(** [confirmDelete] up to its await: a saved test sends the DELETE request,
    an unsaved one is removed from the list at once. *)
Definition confirmDelete_begin (st : State) : State * option Request :=
  match testToDelete st with
  | None => (st, None)
  | Some testToDelete =>
      if truthy_prim (Test.test_id testToDelete)
      then (st, handleDeleteTest_begin st (Test.test_id testToDelete))
      else
        (set_testToDelete None
           (set_activeTab "main"
              (set_customTests
                 (filter (fun test => Test.id test <> Test.id testToDelete)
                    (customTests st)) st)),
         None)
  end.

(** [confirmDelete] after [await handleDeleteTest(testToDelete.test_id)]. *)
Definition confirmDelete_settle (testId : prim) (outcome : FetchOutcome unit)
    (st : State) : State :=
  set_testToDelete None (handleDeleteTest_settle testId outcome st).

(** *** [handleLoadValidation] *)

(** The object built for one entry of the tests response. *)
Definition loadedTest (index : nat) (testData : TestData) : Test.t :=
  Test.mk (Z.of_nat index + 1)
    (td_test_id testData)
    (js_or (td_title testData)
       (JPrim (PStr ("Test " +:+ to_string (td_test_id testData)))))
    (js_or (td_description testData) (JPrim (PStr "")))
    (js_or (td_prompt testData) (JPrim (PStr "")))
    (js_or (td_results testData) (JArr []))
    (js_or (td_code testData) (JPrim (PStr "")))
    (js_or (td_conversation testData) (JObj [("messages", JArr [])]))
    false "".

Definition loadedTests (tests : list TestData) : list Test.t := imap loadedTest tests.

(** [Math.max(...xs, 0)] *)
Definition Math_max_0 (xs : list Z) : Z := foldr Z.max 0 xs.

Definition handleLoadValidation_begin (st : State) : State * Request :=
  (set_status "Loading validation..." (set_error "" (set_isCreating true st)),
   {| req_method := "GET";
      req_url := "/load-validation/" +:+ loadValidationId st;
      req_body := NoBody |}).

(** The second request, sent when the first response was ok. *)
Definition handleLoadValidation_tests_request (closure : State) : Request :=
  {| req_method := "GET";
     req_url := "/tests/" +:+ loadValidationId closure;
     req_body := NoBody |}.

(** The state updates of the [try] block once both bodies are read. *)
Definition handleLoadValidation_loaded (validationResult : ValidationResult)
    (tests : list TestData) (st : State) : State :=
  let st1 :=
    set_fileNames (default defaultFileNames (vr_files validationResult))
      (set_executionId (vr_execution_id validationResult)
         (set_validationId (vr_validation_id validationResult) st)) in
  let st2 :=
    if (0 <? Z.of_nat (length tests))
    then set_nextTestId (Math_max_0 (Test.id <$> loadedTests tests) + 1)
           (set_customTests (loadedTests tests) st1)
    else st1 in
  set_showLoadForm false (set_status "Validation loaded successfully" st2).

(** After the awaits: [validationOutcome] is the outcome of the first
    request, [testsOutcome] that of the second (not looked at when the first
    one failed). *)
Definition handleLoadValidation_settle (validationOutcome : FetchOutcome ValidationResult)
    (testsOutcome : FetchOutcome (list TestData)) (st : State) : State :=
  let tried :=
    match try_response validationOutcome with
    | inl message => inl message
    | inr validationResult =>
        match try_response testsOutcome with
        | inl message => inl message
        | inr tests => inr (validationResult, tests)
        end
    end in
  set_isCreating false
    match tried with
    | inr (validationResult, tests) =>
        handleLoadValidation_loaded validationResult tests st
    | inl message =>
        set_status "Error loading validation" (set_error ("Error: " +:+ message) st)
    end.

(** The settlement of a load whose two responses are ok but whose tests
    body is not an array of objects ([null], or an array holding a [null]
    entry): [tests.length], or [testData.test_id] inside [tests.map],
    throws the error of [message] after [setValidationId], [setExecutionId]
    and [setFileNames] have run; [catch] and [finally] follow.  (A body that
    fails before the first setter, such as a [null] validation body, acts
    like [FetchThrew].) *)
Definition handleLoadValidation_malformed (validationResult : ValidationResult)
    (message : string) (st : State) : State :=
  set_isCreating false
    (set_status "Error loading validation"
       (set_error ("Error: " +:+ message)
          (set_fileNames (default defaultFileNames (vr_files validationResult))
             (set_executionId (vr_execution_id validationResult)
                (set_validationId (vr_validation_id validationResult) st))))).

(** *** [handleCreateValidation] *)

Definition handleCreateValidation_begin (st : State) : State * Request :=
  (set_status "Creating validation..." (set_error "" (set_isCreating true st)),
   {| req_method := "POST";
      req_url := "/create-validation";
      req_body := FormBody (formData st) (map_to_list (files st)) |}).

Definition handleCreateValidation_settle (outcome : FetchOutcome CreateResult)
    (st : State) : State :=
  set_isCreating false
    match try_response outcome with
    | inr result =>
        set_status "Validation created successfully"
          (set_executionId (cr_execution_id result)
             (set_validationId (cr_validation_id result) st))
    | inl message =>
        set_status "Error creating validation" (set_error ("Error: " +:+ message) st)
    end.

(** *** [handleGenerateReport] *)

Definition handleGenerateReport_begin (st : State) : State * option Request :=
  if negb (truthy_prim (validationId st)) then (st, None)
  else
    (set_isGeneratingReport true st,
     Some {| req_method := "POST";
             req_url := "/generate-report/" +:+ to_string (validationId st);
             req_body := NoBody |}).

Definition handleGenerateReport_settle (outcome : FetchOutcome unit) (st : State) : State :=
  set_isGeneratingReport false
    match outcome with
    | FetchOk _ => set_status "Report generated successfully" st
    | FetchNotOk _ =>
        set_error ("Error generating report: " +:+ "Failed to generate report") st
    | FetchThrew message => set_error ("Error generating report: " +:+ message) st
    end.

(** ** The follow-up form: component [TestConversation] *)

Module TestConversation.
(** Its own state cells ([activeTab] and [imageErrors] only select what is
    drawn and are left out). *)
Record state := mk {
  followUpMessage : string;
  submitting : bool
}.

Definition initial : state := mk "" false.

(** [onChange] of the textarea. *)
Definition setFollowUpMessage (value : string) (st : state) : state :=
  mk value (submitting st).

(** [handleSubmit] up to [await onSubmitFollowUp(messageToSend)]: the new
    state and the message handed to the callback, [None] when it returns
    early. *)
Definition handleSubmit_begin (st : state) : state * option string :=
  if negb (truthy_prim (PStr (trim (followUpMessage st)))) then (st, None)
  else (mk (followUpMessage st) true, Some (trim (followUpMessage st))).

(** After the await: [setFollowUpMessage('')] when the callback resolved,
    the [catch] branch (an alert) when it rejected, then [finally]. *)
Definition handleSubmit_settle (completion : Completion) (st : state) : state :=
  let st' :=
    match completion with
    | Resolved => mk "" (submitting st)
    | Rejected _ => st
    end in
  mk (followUpMessage st') false.

(** [disabled] of the textarea and of the submit button. *)
Definition textarea_disabled (st : state) : bool := submitting st.

Definition send_disabled (st : state) : bool :=
  negb (truthy_prim (PStr (trim (followUpMessage st)))) || submitting st.
End TestConversation.

(** ** What is rendered *)

(** [FileInput] of [ui/file-input.jsx]: the [disabled] prop goes to the
    button and to the hidden file input; the DOM attribute is set when the
    prop is truthy. *)
Record FileInputView := {
  fi_label : string;
  fi_id : string;
  fi_name : string;
  fi_value : json;
  fi_button_disabled : bool;
  fi_input_disabled : bool
}.

Definition FileInput (label id name : string) (value : json) (disabled : prim)
    : FileInputView :=
  {| fi_label := label; fi_id := id; fi_name := name; fi_value := value;
     fi_button_disabled := truthy_prim disabled;
     fi_input_disabled := truthy_prim disabled |}.

(** [fileNames.name] *)
Definition fileName (name : string) (st : State) : json :=
  default (JPrim PUndefined) (fileNames st !! name).

(** The form [<form onSubmit={handleCreateValidation}>] of the main tab. *)
Record CreateFormView := {
  artifactInputs : list FileInputView;
  createButton_disabled : bool;
  createButton_label : string
}.

Definition render_createForm (st : State) : CreateFormView :=
  {| artifactInputs :=
       [FileInput "Documentation" "documentation" "documentation"
          (fileName "documentation" st) (validationId st);
        FileInput "Training Script" "trainingScript" "trainingScript"
          (fileName "trainingScript" st) (validationId st);
        FileInput "Trained Model" "trainedModel" "trainedModel"
          (fileName "trainedModel" st) (validationId st);
        FileInput "Training Dataset" "trainingDataset" "trainingDataset"
          (fileName "trainingDataset" st) (validationId st);
        FileInput "Test Dataset" "testDataset" "testDataset"
          (fileName "testDataset" st) (validationId st)];
     createButton_disabled :=
       truthy_prim (prim_or (PBool (isCreating st)) (validationId st));
     createButton_label :=
       if isCreating st then "Creating..."
       else if truthy_prim (validationId st) then "Validation Created"
       else "Create Validation" |}.

(** [renderTestTab]: [disabled] of the Run Test button, and whether
    [TestConversation] is drawn. *)
Definition runTest_disabled (test : Test.t) : bool :=
  Test.isProcessing test || negb (truthy (Test.description test)).

Definition conversation_rendered (test : Test.t) : bool := truthy (Test.results test).

(** [value] of the tab of a test. *)
Definition tabValue (test : Test.t) : string := "test-" +:+ pretty (Test.id test).

(** [disabled] of the Load button. *)
Definition loadButton_disabled (st : State) : bool :=
  negb (truthy_prim (PStr (loadValidationId st))) || isCreating st.

(** ** Events *)

(** What can happen to a mounted [FormComponent]: the user acts on a control,
    or a request settles.  Tests are addressed by their position in
    [customTests], as the tabs are drawn. *)
Inductive Event :=
| ChangeFile (name : string) (fileList : list File)
| SubmitCreateForm
| CreateSettled (outcome : FetchOutcome CreateResult)
| OpenLoadDialog
| CloseLoadDialog
| ChangeLoadValidationId (value : string)
| SubmitLoadForm
| LoadSettled (validationOutcome : FetchOutcome ValidationResult)
    (testsOutcome : FetchOutcome (list TestData))
| LoadSettledMalformed (validationResult : ValidationResult) (message : string)
| ClickNewTest
| SelectTab (value : string)
| ChangeTitle (index : nat) (value : string)
| ChangeDescription (index : nat) (value : string)
| ClickRunTest (index : nat)
| SubmitFollowUp (index : nat) (conv : TestConversation.state)
| TestSettled (testId : Z) (outcome : FetchOutcome ExecResult)
| ClickDeleteTest (index : nat)
| ClickConfirmDelete
| CloseDeleteDialog
| DeleteSettled (testId : prim) (outcome : FetchOutcome unit)
| ClickGenerateReport
| ReportSettled (outcome : FetchOutcome unit).

Definition onMainTab (st : State) : bool := String.eqb (activeTab st) "main".

Definition onTestTab (st : State) (index : nat) : bool :=
  match customTests st !! index with
  | Some test => String.eqb (activeTab st) (tabValue test)
  | None => false
  end.

(** Whether the control of a user event is drawn and not disabled.  A
    settlement is not gated. *)
Definition enabled (st : State) (e : Event) : bool :=
  match e with
  | ChangeFile name _ =>
      onMainTab st
      && existsb (fun v => String.eqb (fi_name v) name && negb (fi_input_disabled v))
           (artifactInputs (render_createForm st))
  | SubmitCreateForm =>
      onMainTab st && negb (createButton_disabled (render_createForm st))
  | OpenLoadDialog => true
  | CloseLoadDialog | ChangeLoadValidationId _ => onMainTab st && showLoadDialog st
  | SubmitLoadForm =>
      onMainTab st && showLoadDialog st && negb (loadButton_disabled st)
  | ClickNewTest => truthy_prim (validationId st)
  | SelectTab value =>
      String.eqb value "main"
      || existsb (fun test => String.eqb value (tabValue test)) (customTests st)
  | ChangeTitle index _ | ChangeDescription index _ => onTestTab st index
  | ClickRunTest index =>
      onTestTab st index
      && match customTests st !! index with
         | Some test => negb (runTest_disabled test)
         | None => false
         end
  | SubmitFollowUp index conv =>
      onTestTab st index
      && match customTests st !! index with
         | Some test =>
             conversation_rendered test && negb (TestConversation.send_disabled conv)
         | None => false
         end
  | ClickDeleteTest index => bool_decide (is_Some (customTests st !! index))
  | ClickConfirmDelete | CloseDeleteDialog => bool_decide (is_Some (testToDelete st))
  | ClickGenerateReport => true
  | CreateSettled _ | LoadSettled _ _ | LoadSettledMalformed _ _ | TestSettled _ _
  | DeleteSettled _ _ | ReportSettled _ => true
  end.

(** The handler an event runs. *)
Definition handle (st : State) (e : Event) : State :=
  match e with
  | ChangeFile name fileList => handleFileChange name fileList st
  | SubmitCreateForm => fst (handleCreateValidation_begin st)
  | CreateSettled outcome => handleCreateValidation_settle outcome st
  | OpenLoadDialog => handleLoadDialogOpen st
  | CloseLoadDialog => set_showLoadDialog false st
  | ChangeLoadValidationId value => set_loadValidationId value st
  | SubmitLoadForm => fst (handleLoadValidation_begin st)
  | LoadSettled validationOutcome testsOutcome =>
      handleLoadValidation_settle validationOutcome testsOutcome st
  | LoadSettledMalformed validationResult message =>
      handleLoadValidation_malformed validationResult message st
  | ClickNewTest => addCustomTest st
  | SelectTab value => set_activeTab value st
  | ChangeTitle index value =>
      match customTests st !! index with
      | Some test => handleTestTitleChange (Test.id test) value st
      | None => st
      end
  | ChangeDescription index value =>
      match customTests st !! index with
      | Some test => handleTestDescriptionChange (Test.id test) value st
      | None => st
      end
  | ClickRunTest index =>
      match customTests st !! index with
      | Some test => fst (handleTestSubmit_begin st (Test.id test) PNull st)
      | None => st
      end
  | SubmitFollowUp index conv =>
      match customTests st !! index, snd (TestConversation.handleSubmit_begin conv) with
      | Some test, Some message => fst (onSubmitFollowUp_begin st test message st)
      | _, _ => st
      end
  | TestSettled testId outcome => fst (handleTestSubmit_settle testId outcome st)
  | ClickDeleteTest index =>
      match customTests st !! index with
      | Some test => removeCustomTest (Test.id test) st
      | None => st
      end
  | ClickConfirmDelete => fst (confirmDelete_begin st)
  | CloseDeleteDialog => set_testToDelete None st
  | DeleteSettled testId outcome => confirmDelete_settle testId outcome st
  | ClickGenerateReport => fst (handleGenerateReport_begin st)
  | ReportSettled outcome => handleGenerateReport_settle outcome st
  end.

Definition step (st : State) (e : Event) : State :=
  if enabled st e then handle st e else st.

Definition run (st : State) (es : list Event) : State := fold_left step es st.

(** The states a session can be in. *)
Inductive reachable : State -> Prop :=
| reachable_initial : reachable initialState
| reachable_step st e : reachable st -> reachable (step st e).

(** The requests an event sends (the second request of a load is sent from
    the settlement of the first). *)
Definition requests (st : State) (e : Event) : list Request :=
  if enabled st e then
    match e with
    | SubmitCreateForm => [snd (handleCreateValidation_begin st)]
    | SubmitLoadForm => [snd (handleLoadValidation_begin st)]
    | ClickRunTest index =>
        match customTests st !! index with
        | Some test =>
            option_list (snd (handleTestSubmit_begin st (Test.id test) PNull st))
        | None => []
        end
    | SubmitFollowUp index conv =>
        match customTests st !! index, snd (TestConversation.handleSubmit_begin conv) with
        | Some test, Some message =>
            option_list (snd (onSubmitFollowUp_begin st test message st))
        | _, _ => []
        end
    | ClickConfirmDelete => option_list (snd (confirmDelete_begin st))
    | ClickGenerateReport => option_list (snd (handleGenerateReport_begin st))
    | _ => []
    end
  else [].

(** ** The prompt template for one test *)

Definition newline : string := String "010"%char EmptyString.

Definition unlines (lines : list string) : string :=
  foldr (fun line rest => line +:+ newline +:+ rest) EmptyString lines.

(** [independent_test_template] of [templates.yaml] (a YAML block scalar:
    the indentation of the block is removed, every line ends with a line
    feed). *)
Definition independent_test_template_lines : list string :=
  ["If you have a model {documentation} {code} {train} {test} {pickle}, implement a Python test {test_title}, ";
   "described as {test_description}.";
   "";
   "I want you to generate a self contained Python script that will be executed using the exec function in another Python process. All the code has to be in one block and has to contain a call to execute the test.";
   "";
   "Please ensure the code meets the following criteria:";
   "";
   "1: The code should create the folder {test_folder} to save all the outputs";
   "2: Generate visualizations when possible and save them inside {test_folder}. Add titles to the axis and legends to all of them";
   "3: Add all the generated images to the reports with proper explanation of them";
   "4: Do proper error handling to not interrupt the execution";
   "5: Generate a report with Markdown called report.md, containing the results, visualizations and save it ";
   "   inside {test_folder}. The report has to explain with detail what the test is doing";
   "7: All the code should be inside one single snippet of Python code";
   "8: All the code should be between ```python and ```";
   "9: Never use ``` inside the code";
   "10: Only print errors that have affected the execution, nothing else";
   "11: If an error is caught, print the message"].

Definition independent_test_template : string := unlines independent_test_template_lines.

(** Modelled from the spec: the renderer of the Prompt Template Engine is
    not among the sources.  Given a template and a mapping of substitution
    variables it produces one prompt: every [{name}] of the template is
    replaced by the value of [name], and rendering fails ([None]) when a
    variable is absent from the mapping or a field is not closed.  [field]
    is the name read so far inside a pair of braces. *)
Fixpoint render_from (field : option string) (vars : string -> option string)
    (template : string) : option string :=
  match template, field with
  | EmptyString, None => Some EmptyString
  | EmptyString, Some _ => None
  | String "{"%char rest, None => render_from (Some EmptyString) vars rest
  | String c rest, None => String c <$> render_from None vars rest
  | String "}"%char rest, Some name =>
      match vars name with
      | Some value => (fun tail => value +:+ tail) <$> render_from None vars rest
      | None => None
      end
  | String c rest, Some name =>
      render_from (Some (name +:+ String c EmptyString)) vars rest
  end.

Definition render (template : string) (vars : string -> option string) : option string :=
  render_from None vars template.

(** The variables of [independent_test_template]. *)
Definition single_test_vars (documentation code train test pickle test_title
    test_description test_folder : string) (name : string) : option string :=
  if String.eqb name "documentation" then Some documentation
  else if String.eqb name "code" then Some code
  else if String.eqb name "train" then Some train
  else if String.eqb name "test" then Some test
  else if String.eqb name "pickle" then Some pickle
  else if String.eqb name "test_title" then Some test_title
  else if String.eqb name "test_description" then Some test_description
  else if String.eqb name "test_folder" then Some test_folder
  else None.

(** [needle] occurs in [hay]. *)
Definition contains (needle hay : string) : Prop :=
  exists before after, hay = before +:+ needle +:+ after.

Definition starts_with (needle hay : string) : Prop :=
  exists after, hay = needle +:+ after.

(** The lines of the prompt for given values of the variables: the lines
    of the template with the values in the place of the fields. *)
Definition single_test_prompt_lines (documentation code train test pickle test_title
    test_description test_folder : string) : list string :=
  [
     "If you have a model " +:+ documentation +:+ " " +:+ code +:+ " " +:+ train
       +:+ " " +:+ test +:+ " " +:+ pickle +:+ ", implement a Python test "
       +:+ test_title +:+ ", ";
     "described as " +:+ test_description +:+ ".";
     "";
     "I want you to generate a self contained Python script that will be executed using the exec function in another Python process. All the code has to be in one block and has to contain a call to execute the test.";
     "";
     "Please ensure the code meets the following criteria:";
     "";
     "1: The code should create the folder " +:+ test_folder
       +:+ " to save all the outputs";
     "2: Generate visualizations when possible and save them inside " +:+ test_folder
       +:+ ". Add titles to the axis and legends to all of them";
     "3: Add all the generated images to the reports with proper explanation of them";
     "4: Do proper error handling to not interrupt the execution";
     "5: Generate a report with Markdown called report.md, containing the results, visualizations and save it ";
     "   inside " +:+ test_folder
       +:+ ". The report has to explain with detail what the test is doing";
     "7: All the code should be inside one single snippet of Python code";
     "8: All the code should be between ```python and ```";
     "9: Never use ``` inside the code";
     "10: Only print errors that have affected the execution, nothing else";
     "11: If an error is caught, print the message" ].

(** ** Predicates used in the statements *)

(** Local ids are pairwise distinct and below the next id to hand out. *)
Definition ids_below (tests : list Test.t) (next : Z) : Prop :=
  NoDup (Test.id <$> tests) /\ forall t, t ∈ tests -> Test.id t < next.

(** [t'] agrees with [t] on everything but [isProcessing] and [error]. *)
Definition same_payload (t t' : Test.t) : Prop :=
  Test.id t' = Test.id t /\ Test.test_id t' = Test.test_id t
  /\ Test.title t' = Test.title t /\ Test.description t' = Test.description t
  /\ Test.prompt t' = Test.prompt t /\ Test.results t' = Test.results t
  /\ Test.testCode t' = Test.testCode t /\ Test.conversation t' = Test.conversation t.

(** ** Sample sessions *)

(** A validation was created. *)
Definition session_created : State :=
  step initialState
    (CreateSettled (FetchOk {| cr_validation_id := PStr "v1";
                               cr_execution_id := PStr "e1" |})).

(** Two tests were added with the New Test button. *)
Definition session_two_tests : State :=
  step (step session_created ClickNewTest) ClickNewTest.

(** A stored test that completed once, as [/tests/v1] returns it, and the
    entry [handleLoadValidation] builds for it. *)
Definition storedTest : TestData :=
  {| td_test_id := PStr "t-1";
     td_title := JPrim (PStr "Backtest");
     td_description := JPrim (PStr "Compare predictions to historical defaults");
     td_prompt := JPrim (PStr "If you have a model");
     td_results := JArr [JObj [("filename", JPrim (PStr "report.md"));
                               ("content", JPrim (PStr "# Backtest"))]];
     td_code := JPrim (PStr "print(1)");
     td_conversation := JObj [("messages", JArr [])] |}.

Definition completedTest : Test.t := loadedTest 0 storedTest.

(** The validation [v1] with that one test was loaded. *)
Definition session_loaded : State :=
  step (step (step (step initialState OpenLoadDialog) (ChangeLoadValidationId "v1"))
          SubmitLoadForm)
    (LoadSettled
       (FetchOk {| vr_validation_id := PStr "v1"; vr_execution_id := PStr "e1";
                   vr_files := None |})
       (FetchOk [storedTest])).

(** A new test was added and its description typed. *)
Definition session_described : State :=
  step (step session_created ClickNewTest)
    (ChangeDescription 0 "Compare predictions to historical defaults").

(** A second stored test, and the validation loaded with both. *)
Definition otherStoredTest : TestData :=
  {| td_test_id := PStr "t-7";
     td_title := JPrim (PStr "Stability");
     td_description := JPrim (PStr "Evaluate model consistency over time");
     td_prompt := JPrim (PStr "If you have a model");
     td_results := JArr [];
     td_code := JPrim (PStr "print(7)");
     td_conversation := JObj [("messages", JArr [])] |}.

Definition session_loaded_two : State :=
  step (step (step (step initialState OpenLoadDialog) (ChangeLoadValidationId "v1"))
          SubmitLoadForm)
    (LoadSettled
       (FetchOk {| vr_validation_id := PStr "v1"; vr_execution_id := PStr "e1";
                   vr_files := None |})
       (FetchOk [storedTest; otherStoredTest])).

(** The tab of the loaded test was selected. *)
Definition session_loaded_tab : State := step session_loaded (SelectTab "test-1").

(** ** The contract of the execute-test body in the spec's words *)

(** For a request sent for [test]: [test_id] absent and [description] present
    on an initial submission (the test has no backend [test_id]); [test_id]
    present only together with [follow_up_message]; never [test_id] without
    both [description] and [follow_up_message]. *)
Definition spec_execute_test_body (test : Test.t) (body : list (string * json)) : Prop :=
  (truthy_prim (Test.test_id test) = false ->
   has_key "test_id" body = false /\ has_key "description" body = true)
  /\ (has_key "test_id" body = true -> has_key "follow_up_message" body = true)
  /\ ~ (has_key "test_id" body = true /\ has_key "description" body = false
        /\ has_key "follow_up_message" body = false).

(** ** Loading, in the spec's words *)

(** One load of [loadValidationId]: the handler from submit to settlement. *)
Definition loadValidation (validationOutcome : FetchOutcome ValidationResult)
    (testsOutcome : FetchOutcome (list TestData)) (st : State) : State :=
  handleLoadValidation_settle validationOutcome testsOutcome
    (fst (handleLoadValidation_begin st)).

(** The display test the spec describes for a stored test: local id
    [index + 1] and the stored fields as they are. *)
Definition spec_displayTest (index : nat) (testData : TestData) : Test.t :=
  Test.mk (Z.of_nat index + 1) (td_test_id testData) (td_title testData)
    (td_description testData) (td_prompt testData) (td_results testData)
    (td_code testData) (td_conversation testData) false "".

(** A stored test whose title is the empty string and whose description is
    [null]. *)
Definition untitledStoredTest : TestData :=
  {| td_test_id := PStr "t-2";
     td_title := JPrim (PStr "");
     td_description := JPrim PNull;
     td_prompt := JPrim (PStr "If you have a model");
     td_results := JArr [];
     td_code := JPrim (PStr "print(2)");
     td_conversation := JObj [("messages", JArr [])] |}.

(** The response of [/load-validation/v1]. *)
Definition validation_v1 : ValidationResult :=
  {| vr_validation_id := PStr "v1"; vr_execution_id := PStr "e1"; vr_files := None |}.

(** ** Assumption on the backend used for whole sessions *)

(** A create or load request that succeeds answers with a truthy
    [validation_id]. *)
Definition answers_with_id (e : Event) : Prop :=
  match e with
  | CreateSettled (FetchOk result) => truthy_prim (cr_validation_id result) = true
  | LoadSettled (FetchOk validationResult) (FetchOk _)
  | LoadSettledMalformed validationResult _ =>
      truthy_prim (vr_validation_id validationResult) = true
  | _ => True
  end.

(** Every control that changes the artifact set is disabled. *)
Definition createForm_locked (st : State) : Prop :=
  Forall (fun v => fi_button_disabled v = true /\ fi_input_disabled v = true)
    (artifactInputs (render_createForm st))
  /\ createButton_disabled (render_createForm st) = true.

(** ** A reload while a request is in flight *)

(** With the two stored tests loaded, Run Test was clicked on [t-7], shown
    under local id 2. *)
Definition session_run_clicked : State :=
  run session_loaded_two [SelectTab "test-2"; ClickRunTest 1].

(** Before the request settles [t-1] is deleted, the validation is loaded
    again (the one test [t-7] left, now under local id 1) and a new test is
    added, which is given local id 2. *)
Definition reload_events : list Event :=
  [ClickDeleteTest 0; ClickConfirmDelete; DeleteSettled (PStr "t-1") (FetchOk tt);
   SubmitLoadForm; LoadSettled (FetchOk validation_v1) (FetchOk [otherStoredTest]);
   ClickNewTest].

Definition session_reloaded : State := run session_run_clicked reload_events.



(** ** Isolation of a submission, in the spec's words *)


(** ** Deleting a saved test, in the spec's words *)


(** ** The artifact set, in the spec's words *)

(** Once [validationId] is set, for the rest of the session the controls of
    the artifacts stay disabled and the artifacts shown stay the same. *)
Definition spec_artifacts_immutable : Prop :=
  forall st es,
    reachable st -> truthy_prim (validationId st) = true ->
    createForm_locked (run st es) /\ fileNames (run st es) = fileNames st.

(** A validation created after a documentation file was chosen. *)
Definition chosenFile : File := {| file_name := "doc.md"; file_blob := 1 |}.

Definition session_uploaded : State :=
  run initialState
    [ChangeFile "documentation" [chosenFile]; SubmitCreateForm;
     CreateSettled (FetchOk {| cr_validation_id := PStr "v1";
                               cr_execution_id := PStr "e1" |})].

(** Another validation, as [/load-validation/v2] returns it, and an answer
    that carries no [validation_id]. *)
Definition validation_v2 : ValidationResult :=
  {| vr_validation_id := PStr "v2"; vr_execution_id := PStr "e2";
     vr_files := Some (<["documentation" := JPrim (PStr "other.md")]> defaultFileNames) |}.

Definition validation_without_id : ValidationResult :=
  {| vr_validation_id := PUndefined; vr_execution_id := PUndefined; vr_files := None |}.

(** The load dialog is used to load [v2], and the backend answers. *)
Definition load_v2_events (answer : ValidationResult) : list Event :=
  [OpenLoadDialog; ChangeLoadValidationId "v2"; SubmitLoadForm;
   LoadSettled (FetchOk answer) (FetchOk [])].

(** ** Classes of events *)

(** The settlements that run [setValidationId]: a create that succeeded, a
    load of which both requests succeeded. *)
Definition replaces_validation (e : Event) : bool :=
  match e with
  | CreateSettled (FetchOk _) | LoadSettled (FetchOk _) (FetchOk _)
  | LoadSettledMalformed _ _ => true
  | _ => false
  end.

(** The settlement of a create or of a load, whatever its outcome. *)
Definition settles_create_or_load (e : Event) : bool :=
  match e with
  | CreateSettled _ | LoadSettled _ _ | LoadSettledMalformed _ _ => true
  | _ => false
  end.



(** ** A follow-up round from form to form *)

(** The Run Test request of the loaded test is in flight. *)
Definition session_run_in_flight : State := step session_loaded_tab (ClickRunTest 0).

(** [TestConversation.handleSubmit] with the callback [onSubmitFollowUp] of
    [renderTestTab], run to its end: the form state [conv], the application
    state [st], the test of the tab and the outcome of the request the
    callback sends (not looked at when none is sent). *)
Definition followUp_round (conv : TestConversation.state) (st : State) (test : Test.t)
    (outcome : FetchOutcome ExecResult) : TestConversation.state * State :=
  match TestConversation.handleSubmit_begin conv with
  | (conv1, None) => (conv1, st)
  | (conv1, Some messageToSend) =>
      let (st1, request) := onSubmitFollowUp_begin st test messageToSend st in
      let (st2, completion) :=
        match request with
        | Some _ => onSubmitFollowUp_settle test outcome st1
        | None => (st1, Resolved)
        end in
      (TestConversation.handleSubmit_settle completion conv1, st2)
  end.

(** ** Rendering results: component [TestResultRenderer]

    The same [handleImageError] and the same [img] and [code] renderers are
    written out in [TestConversation]. *)

Module TestResultRenderer.
(** [setImageErrors(prev => ({ ...prev, [imageUrl]: true }))] on the object
    [imageErrors], a map from image url to [true]. *)
Definition handleImageError (imageUrl : string) (imageErrors : gmap string bool)
    : gmap string bool :=
  <[imageUrl := true]> imageErrors.

(** What the [img] renderer returns: the error notice with the alternative
    text, or the image with [alt || '']. *)
Inductive ImgView :=
| ImageError (alt : json)
| Image (src : string) (alt : json).

(** The names [imageErrors] inherits from [Object.prototype]: reading one
    of them on the plain object gives a function (an object for
    [__proto__]), which is truthy. *)
Definition Object_prototype_names : list string :=
  ["constructor"; "__proto__"; "hasOwnProperty"; "isPrototypeOf";
   "propertyIsEnumerable"; "toLocaleString"; "toString"; "valueOf";
   "__defineGetter__"; "__defineSetter__"; "__lookupGetter__"; "__lookupSetter__"].

(** Whether [imageErrors[src]] is truthy: an own entry (always [true]), or
    else an inherited name. *)
Definition imageError_read (imageErrors : gmap string bool) (src : string) : bool :=
  default (bool_decide (src ∈ Object_prototype_names)) (imageErrors !! src).

Definition img (imageErrors : gmap string bool) (src : string) (alt : json) : ImgView :=
  if imageError_read imageErrors src then ImageError alt
  else Image src (js_or alt (JPrim (PStr ""))).

(** [s] without the prefix [pattern], when it starts with it. *)
Fixpoint strip_prefix (pattern s : string) : option string :=
  match pattern, s with
  | EmptyString, _ => Some s
  | String a pattern', String b s' =>
      if Ascii.eqb a b then strip_prefix pattern' s' else None
  | String _ _, EmptyString => None
  end.

(** [s.replace(pattern, replacement)] for a string pattern and a replacement
    without [$]: the first occurrence, from the left, is replaced. *)
Fixpoint replace (pattern replacement s : string) : string :=
  match strip_prefix pattern s with
  | Some rest => replacement +:+ rest
  | None =>
      match s with
      | EmptyString => EmptyString
      | String c s' => String c (replace pattern replacement s')
      end
  end.

(** What the [code] renderer returns: inline code, or the highlighter with
    its language. *)
Inductive CodeView :=
| InlineCode (children : string)
| Highlighted (language : string) (text : string).

(** [className] is [None] when the prop is [undefined]. *)
Definition code (inline : bool) (className : option string) (children : string)
    : CodeView :=
  if inline then InlineCode children
  else
    let language :=
      match className with
      | Some name =>
          if truthy_prim (PStr name) then replace "language-" "" name else "text"
      | None => "text"
      end in
    Highlighted language children.

(** [testCode || '# No test code available'] of the code tab. *)
Definition shownCode (testCode : json) : json :=
  js_or testCode (JPrim (PStr "# No test code available")).
End TestResultRenderer.

(** ** The menus: component [DropdownMenu] of [ui/dropdown-menu.jsx] *)

Module DropdownMenu.
(** What reaches a mounted menu: a click on its trigger, a [mousedown]
    outside of it, or a [mousedown] inside of it (on the trigger or on an
    item, whose own [onClick] does not touch the menu). *)
Inductive event :=
| TriggerClick
| MouseDownOutside
| MouseDownInside.

(** The cell [isOpen] after an event: [setIsOpen(!isOpen)] of the trigger,
    [handleClickOutside] of the [mousedown] listener. *)
Definition handle (isOpen : bool) (e : event) : bool :=
  match e with
  | TriggerClick => negb isOpen
  | MouseDownOutside => false
  | MouseDownInside => isOpen
  end.

Definition run (isOpen : bool) (es : list event) : bool := fold_left handle es isOpen.

(** [DropdownContent] is drawn when [isOpen]. *)
Definition content_rendered (isOpen : bool) : bool := isOpen.

Definition is_trigger_click (e : event) : bool :=
  match e with TriggerClick => true | _ => false end.

Definition is_outside (e : event) : bool :=
  match e with MouseDownOutside => true | _ => false end.
End DropdownMenu.

(** Local ids start at 1. *)
Definition ids_positive (tests : list Test.t) (next : Z) : Prop :=
  1 <= next /\ forall t, t ∈ tests -> 1 <= Test.id t.

(** * Properties *)

(** Setters and projections on an explicit record, by call-by-value. *)
Ltac state_simpl :=
  cbv [set_formData set_files set_fileNames set_validationId set_executionId
       set_isCreating set_error set_status set_loadValidationId set_showLoadForm
       set_testToDelete set_customTests set_activeTab set_nextTestId
       set_showLoadDialog set_isGeneratingReport
       formData files fileNames validationId executionId isCreating error status
       loadValidationId showLoadForm testToDelete customTests activeTab nextTestId
       showLoadDialog isGeneratingReport fst snd].

(** ** The definitions on small inputs *)

Example trim_both_ends : trim "  fix the plot " = "fix the plot".
Proof. reflexivity. Qed.

Example trim_blank : trim (String "009"%char "  ") = EmptyString.
Proof. reflexivity. Qed.

Example truthy_samples :
  truthy_prim (PStr "") = false /\ truthy_prim (PNum 0) = false
  /\ truthy_prim PNull = false /\ truthy_prim PUndefined = false
  /\ truthy_prim (PStr "v1") = true /\ truthy (JArr []) = true.
Proof. repeat split. Qed.

Example stringify_drops_undefined :
  JSON_stringify_fields [("a", JPrim (PNum 1)); ("b", JPrim PUndefined)]
  = [("a", JPrim (PNum 1))].
Proof. reflexivity. Qed.

Example new_test_tab :
  activeTab session_two_tests = "test-2" /\ nextTestId session_two_tests = 3
  /\ Test.id <$> customTests session_two_tests = [1; 2].
Proof. repeat split. Qed.

Example loaded_session_tests :
  customTests session_loaded = [completedTest]
  /\ nextTestId session_loaded = 2
  /\ validationId session_loaded = PStr "v1".
Proof. repeat split. Qed.

(** A file chosen before the validation exists is taken; the same choice
    afterwards is not. *)
Example choose_file_before_and_after :
  files (step initialState
           (ChangeFile "documentation" [{| file_name := "doc.md"; file_blob := 1 |}]))
    !! "documentation" = Some {| file_name := "doc.md"; file_blob := 1 |}
  /\ files (step session_created
              (ChangeFile "documentation" [{| file_name := "doc.md"; file_blob := 1 |}]))
     = files session_created.
Proof. split; reflexivity. Qed.

(** ** Lists of tests under the updaters *)

Lemma update_test_lookup testId f (prev : list Test.t) (j : nat) :
  update_test testId f prev !! j
  = (fun t => if Z.eqb (Test.id t) testId then f t else t) <$> prev !! j.
Proof. unfold update_test. apply list_lookup_fmap. Qed.

Lemma update_test_other testId f (prev : list Test.t) (j : nat) (B : Test.t) :
  prev !! j = Some B -> Test.id B <> testId ->
  update_test testId f prev !! j = Some B.
Proof.
  intros Hj Hne. rewrite update_test_lookup, Hj. simpl.
  destruct (Z.eqb_spec (Test.id B) testId); [contradiction | reflexivity].
Qed.

Lemma update_test_hit testId f (prev : list Test.t) (j : nat) (A : Test.t) :
  prev !! j = Some A -> Test.id A = testId ->
  update_test testId f prev !! j = Some (f A).
Proof.
  intros Hj He. rewrite update_test_lookup, Hj. simpl.
  destruct (Z.eqb_spec (Test.id A) testId); [reflexivity | contradiction].
Qed.

Lemma update_test_length testId f (prev : list Test.t) :
  length (update_test testId f prev) = length prev.
Proof. unfold update_test. apply length_fmap. Qed.

Lemma update_test_ids testId f (prev : list Test.t) :
  (forall t, Test.id (f t) = Test.id t) ->
  Test.id <$> update_test testId f prev = Test.id <$> prev.
Proof.
  intros Hf. unfold update_test. rewrite <- list_fmap_compose.
  apply list_fmap_ext. intros _ t _. simpl.
  destruct (Test.id t =? testId); [apply Hf | reflexivity].
Qed.

Lemma update_test_elem testId f (prev : list Test.t) (t' : Test.t) :
  t' ∈ update_test testId f prev ->
  exists t, t ∈ prev /\ (t' = t \/ t' = f t).
Proof.
  unfold update_test. intros Hin. apply list_elem_of_fmap in Hin as (t & -> & Ht).
  exists t. split; [exact Ht |]. destruct (Test.id t =? testId); auto.
Qed.

(** ** The invariant on local ids *)

Lemma ids_below_update testId f tests next :
  (forall t, Test.id (f t) = Test.id t) ->
  ids_below tests next -> ids_below (update_test testId f tests) next.
Proof.
  intros Hf [Hnd Hlt]. split.
  - rewrite update_test_ids by exact Hf. exact Hnd.
  - intros t' Hin. apply update_test_elem in Hin as (t & Ht & [-> | ->]).
    + auto.
    + rewrite Hf. auto.
Qed.

Lemma ids_below_filter (P : Test.t -> Prop) `{!forall t, Decision (P t)} tests next :
  ids_below tests next -> ids_below (filter P tests) next.
Proof.
  intros [Hnd Hlt]. split.
  - eapply sublist_NoDup; [exact Hnd |].
    apply fmap_sublist, sublist_filter.
  - intros t Hin. apply list_elem_of_filter in Hin as [_ Hin]. auto.
Qed.

Lemma ids_below_add tests next :
  ids_below tests next -> ids_below (tests ++ [newTest next]) (next + 1).
Proof.
  intros [Hnd Hlt]. split.
  - rewrite fmap_app. simpl. apply NoDup_app. split; [exact Hnd |]. split.
    + intros x Hx Hx'. apply list_elem_of_singleton in Hx'. subst x.
      apply list_elem_of_fmap in Hx as (t & He & Ht).
      specialize (Hlt t Ht). lia.
    + apply NoDup_singleton.
  - intros t Hin. apply elem_of_app in Hin as [Hin | Hin].
    + specialize (Hlt t Hin). lia.
    + apply list_elem_of_singleton in Hin. subst t. simpl. lia.
Qed.

Lemma Math_max_0_bound (xs : list Z) (x : Z) : x ∈ xs -> x <= Math_max_0 xs.
Proof.
  unfold Math_max_0. induction xs as [| y ys IH]; intros Hin.
  - inversion Hin.
  - apply elem_of_cons in Hin as [-> | Hin]; simpl.
    + lia.
    + specialize (IH Hin). lia.
Qed.

Lemma loadedTests_ids (tests : list TestData) :
  Test.id <$> loadedTests tests
  = (fun i => Z.of_nat i + 1) <$> seq 0 (length tests).
Proof.
  unfold loadedTests. rewrite fmap_imap.
  rewrite <- (imap_seq_0 tests (fun i => Z.of_nat i + 1)).
  apply imap_ext. reflexivity.
Qed.

Lemma ids_below_loaded (tests : list TestData) :
  ids_below (loadedTests tests) (Math_max_0 (Test.id <$> loadedTests tests) + 1).
Proof.
  split.
  - rewrite loadedTests_ids. apply NoDup_fmap_2; [| apply NoDup_seq].
    intros a b Hab. lia.
  - intros t Hin.
    assert (Test.id t <= Math_max_0 (Test.id <$> loadedTests tests)); [| lia].
    apply Math_max_0_bound. apply list_elem_of_fmap. eauto.
Qed.

Ltac ids_tac Hinv :=
  first [ exact Hinv
        | apply ids_below_loaded
        | apply ids_below_add; exact Hinv
        | apply ids_below_filter; exact Hinv
        | apply ids_below_update; [reflexivity | ids_tac Hinv] ].

Ltac split_match :=
  repeat match goal with
         | |- context [match ?x with _ => _ end] => destruct x; simpl
         end.

(** Every event keeps the invariant, whatever the backend answers. *)
Lemma step_ids_below st e :
  ids_below (customTests st) (nextTestId st) ->
  ids_below (customTests (step st e)) (nextTestId (step st e)).
Proof.
  intros Hinv. unfold step. destruct (enabled st e); [| exact Hinv].
  destruct e; simpl;
    unfold handleFileChange, handleCreateValidation_settle,
      handleLoadValidation_settle, handleLoadValidation_loaded,
      onSubmitFollowUp_begin, handleTestSubmit_begin, handleTestSubmit_settle,
      confirmDelete_begin, confirmDelete_settle, handleDeleteTest_settle,
      handleGenerateReport_begin, handleGenerateReport_settle;
    split_match; ids_tac Hinv.
Qed.

Lemma reachable_ids_below st :
  reachable st -> ids_below (customTests st) (nextTestId st).
Proof.
  induction 1 as [| st e _ IH].
  - split; [apply NoDup_nil_2 | intros t Hin; inversion Hin].
  - apply step_ids_below, IH.
Qed.

(** C9: in every reachable state the local ids of [customTests] are
    pairwise distinct and below [nextTestId]; [addCustomTest] gives the new
    test the current [nextTestId] and increments it; after a load every
    test has an id strictly below the new [nextTestId]. *)
Theorem local_ids_unique st :
  reachable st ->
  NoDup (Test.id <$> customTests st)
  /\ (forall t, t ∈ customTests st -> Test.id t < nextTestId st)
  /\ customTests (addCustomTest st) = customTests st ++ [newTest (nextTestId st)]
  /\ Test.id (newTest (nextTestId st)) = nextTestId st
  /\ nextTestId (addCustomTest st) = nextTestId st + 1
  /\ (forall validationResult tests t,
        t ∈ customTests (handleLoadValidation_loaded validationResult tests st) ->
        Test.id t < nextTestId (handleLoadValidation_loaded validationResult tests st)).
Proof.
  intros Hr. pose proof (reachable_ids_below st Hr) as Hinv.
  destruct Hinv as [Hnd Hlt].
  repeat split; try assumption.
  intros vr tests t. unfold handleLoadValidation_loaded.
  destruct (0 <? Z.of_nat (length tests)); simpl.
  - apply (ids_below_loaded tests).
  - apply Hlt.
Qed.

Lemma local_ids_unique_witness :
  NoDup (Test.id <$> customTests session_two_tests)
  /\ (forall t, t ∈ customTests session_two_tests ->
       Test.id t < nextTestId session_two_tests)
  /\ customTests (addCustomTest session_two_tests)
     = customTests session_two_tests ++ [newTest (nextTestId session_two_tests)]
  /\ Test.id (newTest (nextTestId session_two_tests)) = nextTestId session_two_tests
  /\ nextTestId (addCustomTest session_two_tests) = nextTestId session_two_tests + 1
  /\ (forall validationResult tests t,
        t ∈ customTests (handleLoadValidation_loaded validationResult tests
                           session_two_tests) ->
        Test.id t < nextTestId (handleLoadValidation_loaded validationResult tests
                                  session_two_tests)).
Proof.
  apply (local_ids_unique session_two_tests).
  unfold session_two_tests, session_created. repeat apply reachable_step.
  apply reachable_initial.
Defined.

(** ** Submitting a test touches one entry *)








(** ** A failed submission *)

Lemma same_payload_refl t : same_payload t t.
Proof. repeat split. Qed.

(** The [catch] branch of [handleTestSubmit], applied to any list. *)
Lemma failed_settle_entry testId outcome message st j t :
  try_response outcome = inl message ->
  customTests st !! j = Some t ->
  exists t',
    customTests (fst (handleTestSubmit_settle testId outcome st)) !! j = Some t'
    /\ same_payload t t'
    /\ (Test.id t = testId -> Test.isProcessing t' = false /\ Test.error t' = message)
    /\ (Test.id t <> testId -> t' = t).
Proof.
  intros Hfail Hj. unfold handleTestSubmit_settle. rewrite Hfail. simpl.
  destruct (Z.eq_dec (Test.id t) testId) as [He | Hne].
  - exists (spread_error message t). split.
    + apply update_test_hit; assumption.
    + repeat split. intros Hne. contradiction.
  - exists t. split.
    + apply update_test_other; assumption.
    + split; [apply same_payload_refl |]. split; [intros He; contradiction | reflexivity].
Qed.

(** C2: when the execute-test request of [testId] fails (response not ok,
    or an error thrown), the state after the [catch] differs from the state
    before the submission only in the entries with that id, and there only
    in [error] (the message) and [isProcessing] (false): [results],
    [testCode], [conversation] and the other fields are as before.  The
    same holds for the [catch] alone, from whatever state it is applied to. *)
Theorem failed_submit_preserves_last_good st testId followUp outcome message j t :
  try_response outcome = inl message ->
  customTests st !! j = Some t ->
  let st1 := fst (handleTestSubmit_begin st testId followUp st) in
  let st2 := fst (handleTestSubmit_settle testId outcome st1) in
  st2 = set_customTests (customTests st2) st
  /\ length (customTests st2) = length (customTests st)
  /\ (exists t',
        customTests st2 !! j = Some t'
        /\ same_payload t t'
        /\ (Test.id t = testId ->
            Test.isProcessing t' = false /\ Test.error t' = message)
        /\ (Test.id t <> testId -> t' = t))
  /\ (exists t',
        customTests (fst (handleTestSubmit_settle testId outcome st)) !! j = Some t'
        /\ same_payload t t'
        /\ (Test.id t = testId ->
            Test.isProcessing t' = false /\ Test.error t' = message)
        /\ (Test.id t <> testId -> t' = t)).
Proof.
  intros Hfail Hj st1 st2.
  assert (Hst1 : st1 = st
                 \/ st1 = set_customTests
                            (update_test testId spread_processing (customTests st)) st).
  { subst st1. unfold handleTestSubmit_begin.
    destruct (find_test testId (customTests st)); [| left; reflexivity].
    destruct (negb (truthy_prim (validationId st))); [left | right]; reflexivity. }
  split; [| split; [| split]].
  - subst st2. unfold handleTestSubmit_settle. rewrite Hfail.
    destruct Hst1 as [-> | ->]; reflexivity.
  - subst st2. unfold handleTestSubmit_settle. rewrite Hfail. simpl.
    rewrite update_test_length. destruct Hst1 as [-> | ->]; simpl.
    + reflexivity.
    + apply update_test_length.
  - destruct Hst1 as [Hst1 | Hst1].
    + subst st2. rewrite Hst1. eapply failed_settle_entry; eassumption.
    + destruct (Z.eq_dec (Test.id t) testId) as [He | Hne].
      * assert (Hj1 : customTests st1 !! j = Some (spread_processing t)).
        { rewrite Hst1. simpl. apply update_test_hit; assumption. }
        destruct (failed_settle_entry testId outcome message st1 j _ Hfail Hj1)
          as (t' & Ht' & Hsame & Hhit & _).
        exists t'. split; [exact Ht' |]. split.
        -- destruct Hsame as (? & ? & ? & ? & ? & ? & ? & ?).
           repeat split; assumption.
        -- split; [intros _; apply Hhit; exact He | intros Hne; contradiction].
      * assert (Hj1 : customTests st1 !! j = Some t).
        { rewrite Hst1. simpl. apply update_test_other; assumption. }
        subst st2. eapply failed_settle_entry; eassumption.
  - eapply failed_settle_entry; eassumption.
Qed.

Lemma failed_submit_preserves_last_good_witness :
  (try_response (FetchNotOk 500 : FetchOutcome ExecResult)
   = inl "HTTP error! status: 500"
   /\ customTests session_loaded !! 0%nat = Some completedTest)
  /\ let st1 := fst (handleTestSubmit_begin session_loaded 1 PNull session_loaded) in
     let st2 := fst (handleTestSubmit_settle 1 (FetchNotOk 500) st1) in
     st2 = set_customTests (customTests st2) session_loaded
     /\ length (customTests st2) = length (customTests session_loaded)
     /\ (exists t',
           customTests st2 !! 0%nat = Some t'
           /\ same_payload completedTest t'
           /\ (Test.id completedTest = 1 ->
               Test.isProcessing t' = false
               /\ Test.error t' = "HTTP error! status: 500")
           /\ (Test.id completedTest <> 1 -> t' = completedTest))
     /\ (exists t',
           customTests (fst (handleTestSubmit_settle 1 (FetchNotOk 500) session_loaded))
             !! 0%nat = Some t'
           /\ same_payload completedTest t'
           /\ (Test.id completedTest = 1 ->
               Test.isProcessing t' = false
               /\ Test.error t' = "HTTP error! status: 500")
           /\ (Test.id completedTest <> 1 -> t' = completedTest)).
Proof.
  split; [split; reflexivity |].
  apply (failed_submit_preserves_last_good session_loaded 1 PNull (FetchNotOk 500)
           "HTTP error! status: 500" 0 completedTest); reflexivity.
Defined.

(** ** The body of an execute-test request *)

(** The request [handleTestSubmit] sends, when its guard lets it through. *)
Lemma handleTestSubmit_begin_request closure testId followUpMessage st test :
  find_test testId (customTests closure) = Some test ->
  truthy_prim (validationId closure) = true ->
  snd (handleTestSubmit_begin closure testId followUpMessage st)
  = Some {| req_method := "POST"; req_url := "/execute-test";
            req_body := JsonBody (requestBody (validationId closure) test testId
                                    followUpMessage) |}.
Proof.
  intros Hfind Hv. unfold handleTestSubmit_begin. rewrite Hfind, Hv. reflexivity.
Qed.

(** [test.test_id || testId] is never [undefined]: the local id is a number. *)
Lemma prim_or_defined (a : prim) (n : Z) :
  is_undefined (JPrim (prim_or a (PNum n))) = false.
Proof.
  unfold prim_or. destruct a as [| | b | m | s]; simpl; try reflexivity.
  - destruct b; reflexivity.
  - destruct (m =? 0); reflexivity.
  - destruct (String.eqb s ""); reflexivity.
Qed.

(** C1, as the code has it: the body always carries [validation_id] and
    [test_id], the latter being the backend [test_id] of the test when it
    is truthy and the local id otherwise, so it is never [undefined] and is
    written by [JSON.stringify]; [description] is a key of the body exactly
    when the test has no truthy backend [test_id], with the description of
    the test as value; [follow_up_message] is a key exactly when a truthy
    follow-up message was passed. *)
Theorem execute_test_body_fields validationId test testId followUpMessage :
  let body := requestBody validationId test testId followUpMessage in
  get_field "validation_id" body = JPrim validationId
  /\ has_key "test_id" body = true
  /\ get_field "test_id" body
     = JPrim (if truthy_prim (Test.test_id test) then Test.test_id test
              else PNum testId)
  /\ is_undefined (get_field "test_id" body) = false
  /\ has_key "test_id" (JSON_stringify_fields body) = true
  /\ has_key "description" body = negb (truthy_prim (Test.test_id test))
  /\ get_field "description" body
     = (if truthy_prim (Test.test_id test) then JPrim PUndefined
        else Test.description test)
  /\ has_key "follow_up_message" body = truthy_prim followUpMessage
  /\ get_field "follow_up_message" body
     = (if truthy_prim followUpMessage then JPrim followUpMessage
        else JPrim PUndefined).
Proof.
  intros body. subst body. unfold requestBody.
  pose proof (prim_or_defined (Test.test_id test) testId) as Hdef.
  split; [reflexivity |]. split; [reflexivity |]. split; [reflexivity |].
  split; [exact Hdef |]. split.
  - set (testIdSent := prim_or (Test.test_id test) (PNum testId)) in *.
    unfold JSON_stringify_fields. simpl in *.
    destruct validationId; simpl; rewrite Hdef; reflexivity.
  - destruct (truthy_prim (Test.test_id test)), (truthy_prim followUpMessage);
      repeat split.
Qed.

(** C1 as the spec words it fails: the Run Test button of a new test sends
    its local id as [test_id], and the Run Test button of a test that has a
    backend [test_id] sends [test_id] with neither [description] nor
    [follow_up_message]. *)
Lemma execute_test_body_not_as_specified :
  requests session_described (ClickRunTest 0)
  = [{| req_method := "POST"; req_url := "/execute-test";
        req_body :=
          JsonBody [("validation_id", JPrim (PStr "v1"));
                    ("test_id", JPrim (PNum 1));
                    ("description",
                     JPrim (PStr "Compare predictions to historical defaults"))] |}]
  /\ ~ spec_execute_test_body
        (newTest 1)
        [("validation_id", JPrim (PStr "v1")); ("test_id", JPrim (PNum 1));
         ("description", JPrim (PStr "Compare predictions to historical defaults"))]
  /\ requests session_loaded_tab (ClickRunTest 0)
     = [{| req_method := "POST"; req_url := "/execute-test";
           req_body :=
             JsonBody [("validation_id", JPrim (PStr "v1"));
                       ("test_id", JPrim (PStr "t-1"))] |}]
  /\ ~ spec_execute_test_body
        completedTest
        [("validation_id", JPrim (PStr "v1")); ("test_id", JPrim (PStr "t-1"))].
Proof.
  split; [reflexivity |]. split.
  - intros (Hinit & _ & _). destruct (Hinit eq_refl) as [Habs _]. discriminate Habs.
  - split; [reflexivity |].
    intros (_ & _ & Hnever). apply Hnever. repeat split.
Qed.

(** ** Deleting a saved test *)



(** What the filter does without any assumption on the ids: the tests that
    stay are those with another [test_id], unchanged and in order. *)
Lemma handleDeleteTest_settle_ok testId body st :
  customTests (handleDeleteTest_settle testId (FetchOk body) st)
  = filter (fun test => Test.test_id test <> testId) (customTests st)
  /\ (forall t, t ∈ customTests (handleDeleteTest_settle testId (FetchOk body) st)
           <-> t ∈ customTests st /\ Test.test_id t <> testId)
  /\ customTests (handleDeleteTest_settle testId (FetchOk body) st)
     `sublist_of` customTests st.
Proof.
  simpl. split; [reflexivity |]. split.
  - intros t. rewrite list_elem_of_filter. tauto.
  - apply sublist_filter.
Qed.




(** ** Loading a validation *)

Lemma loadValidation_customTests validationResult tests st :
  customTests (loadValidation (FetchOk validationResult) (FetchOk tests) st)
  = if 0 <? Z.of_nat (length tests) then loadedTests tests else customTests st.
Proof.
  unfold loadValidation, handleLoadValidation_settle, handleLoadValidation_loaded,
    handleLoadValidation_begin, try_response.
  destruct (0 <? Z.of_nat (length tests)); reflexivity.
Qed.

Lemma loadValidation_idempotent validationOutcome testsOutcome st :
  loadValidation validationOutcome testsOutcome
    (loadValidation validationOutcome testsOutcome st)
  = loadValidation validationOutcome testsOutcome st.
Proof.
  unfold loadValidation, handleLoadValidation_settle, handleLoadValidation_loaded,
    handleLoadValidation_begin.
  destruct (try_response validationOutcome) as [m | vr];
    [destruct st; state_simpl; reflexivity |].
  destruct (try_response testsOutcome) as [m | ts];
    [destruct st; state_simpl; reflexivity |].
  destruct (0 <? Z.of_nat (length ts)); destruct st; state_simpl; reflexivity.
Qed.

(** C4, as the code has it: a second load with the same responses gives
    the state of the first load, cell by cell; a successful load sets the
    validation id, the execution id and the file names from the response;
    and the stored test at position [i] of the list is shown at position
    [i] with local id [i + 1] and the stored [test_id], each of title,
    description, prompt, results, code and conversation being the stored
    value when that is truthy and otherwise the default of the handler. *)
Theorem load_validation_idempotent validationOutcome testsOutcome validationResult
    tests st :
  loadValidation validationOutcome testsOutcome
    (loadValidation validationOutcome testsOutcome st)
  = loadValidation validationOutcome testsOutcome st
  /\ (let st' := loadValidation (FetchOk validationResult) (FetchOk tests) st in
      validationId st' = vr_validation_id validationResult
      /\ executionId st' = vr_execution_id validationResult
      /\ fileNames st' = default defaultFileNames (vr_files validationResult)
      /\ (tests = [] \/ length (customTests st') = length tests)
      /\ forall i testData,
          tests !! i = Some testData ->
          exists t,
            customTests st' !! i = Some t
            /\ Test.id t = Z.of_nat i + 1
            /\ Test.test_id t = td_test_id testData
            /\ Test.title t
               = (if truthy (td_title testData) then td_title testData
                  else JPrim (PStr ("Test " +:+ to_string (td_test_id testData))))
            /\ Test.description t
               = (if truthy (td_description testData) then td_description testData
                  else JPrim (PStr ""))
            /\ Test.prompt t
               = (if truthy (td_prompt testData) then td_prompt testData
                  else JPrim (PStr ""))
            /\ Test.results t
               = (if truthy (td_results testData) then td_results testData
                  else JArr [])
            /\ Test.testCode t
               = (if truthy (td_code testData) then td_code testData
                  else JPrim (PStr ""))
            /\ Test.conversation t
               = (if truthy (td_conversation testData) then td_conversation testData
                  else JObj [("messages", JArr [])])
            /\ Test.isProcessing t = false
            /\ Test.error t = "").
Proof.
  split; [apply loadValidation_idempotent |].
  cbv zeta. rewrite loadValidation_customTests.
  split; [| split; [| split; [| split]]].
  - unfold loadValidation, handleLoadValidation_settle, handleLoadValidation_loaded,
      handleLoadValidation_begin, try_response.
    destruct (0 <? Z.of_nat (length tests)); reflexivity.
  - unfold loadValidation, handleLoadValidation_settle, handleLoadValidation_loaded,
      handleLoadValidation_begin, try_response.
    destruct (0 <? Z.of_nat (length tests)); reflexivity.
  - unfold loadValidation, handleLoadValidation_settle, handleLoadValidation_loaded,
      handleLoadValidation_begin, try_response.
    destruct (0 <? Z.of_nat (length tests)); reflexivity.
  - destruct tests as [| testData rest]; [left; reflexivity | right].
    unfold loadedTests. apply (length_imap loadedTest).
  - intros i testData Hi.
    assert (Hlen : (0 <? Z.of_nat (length tests)) = true).
    { apply Z.ltb_lt. apply lookup_lt_Some in Hi. lia. }
    rewrite Hlen. exists (loadedTest i testData). split.
    + unfold loadedTests. rewrite list_lookup_imap, Hi. reflexivity.
    + repeat split.
Qed.

Lemma load_validation_idempotent_witness :
  [storedTest; untitledStoredTest] !! 1%nat = Some untitledStoredTest
  /\ loadValidation (FetchOk validation_v1) (FetchOk [storedTest; untitledStoredTest])
       (loadValidation (FetchOk validation_v1)
          (FetchOk [storedTest; untitledStoredTest]) initialState)
     = loadValidation (FetchOk validation_v1) (FetchOk [storedTest; untitledStoredTest])
         initialState
  /\ exists t,
       customTests (loadValidation (FetchOk validation_v1)
                      (FetchOk [storedTest; untitledStoredTest]) initialState)
         !! 1%nat = Some t
       /\ Test.id t = 2
       /\ Test.test_id t = PStr "t-2"
       /\ Test.title t = JPrim (PStr "Test t-2").
Proof.
  split; [reflexivity |].
  pose proof (load_validation_idempotent (FetchOk validation_v1)
                (FetchOk [storedTest; untitledStoredTest]) validation_v1
                [storedTest; untitledStoredTest] initialState)
    as (Hidem & _ & _ & _ & _ & Hmap).
  split; [exact Hidem |].
  destruct (Hmap 1%nat untitledStoredTest eq_refl)
    as (t & Ht & Hid & Htid & Htitle & _).
  exists t. split; [exact Ht |]. split; [exact Hid |]. split; [exact Htid |].
  exact Htitle.
Defined.

(** C4 as the spec words it fails: a stored test whose title is empty is
    shown under the generic title, and its [null] description as the empty
    string, so the list shown is not the stored fields carried over. *)
Lemma loaded_test_not_stored_fields :
  customTests (loadValidation (FetchOk validation_v1) (FetchOk [untitledStoredTest])
                 initialState)
  <> imap spec_displayTest [untitledStoredTest]
  /\ (exists t,
        customTests (loadValidation (FetchOk validation_v1) (FetchOk [untitledStoredTest])
                       initialState) !! 0%nat = Some t
        /\ td_title untitledStoredTest = JPrim (PStr "")
        /\ Test.title t = JPrim (PStr "Test t-2")
        /\ td_description untitledStoredTest = JPrim PNull
        /\ Test.description t = JPrim (PStr "")).
Proof.
  split.
  - intros Heq. discriminate Heq.
  - eexists. repeat split.
Qed.

(** ** The artifact inputs once a validation exists *)

Lemma createForm_disabled st :
  truthy_prim (validationId st) = true -> createForm_locked st.
Proof.
  intros Hv. split.
  - unfold render_createForm, FileInput. simpl. rewrite Hv.
    repeat constructor.
  - unfold render_createForm, prim_or. simpl.
    destruct (isCreating st); [reflexivity | exact Hv].
Qed.

Lemma changeFile_disabled st name fileList :
  truthy_prim (validationId st) = true -> enabled st (ChangeFile name fileList) = false.
Proof.
  intros Hv. unfold enabled, render_createForm, FileInput. simpl. rewrite Hv. simpl.
  rewrite ?andb_false_r. reflexivity.
Qed.

Lemma submitCreate_disabled st :
  truthy_prim (validationId st) = true -> enabled st SubmitCreateForm = false.
Proof.
  intros Hv. unfold enabled. rewrite (proj2 (createForm_disabled st Hv)).
  apply andb_false_r.
Qed.

Ltac unfold_handlers :=
  unfold handleCreateValidation_settle,
    handleLoadValidation_begin, handleLoadValidation_settle,
    handleLoadValidation_loaded, handleLoadValidation_malformed,
    onSubmitFollowUp_begin, handleTestSubmit_begin,
    handleTestSubmit_settle, confirmDelete_begin, confirmDelete_settle,
    handleDeleteTest_settle, handleGenerateReport_begin,
    handleGenerateReport_settle, try_response in *.

(** No event changes [files] while [validationId] is truthy, and the id
    stays truthy as long as the backend answers with one. *)
Lemma step_keeps_artifacts st e :
  truthy_prim (validationId st) = true -> answers_with_id e ->
  truthy_prim (validationId (step st e)) = true /\ files (step st e) = files st.
Proof.
  intros Hv He. unfold step.
  destruct (enabled st e) eqn:Hen; [| split; [exact Hv | reflexivity]].
  destruct e.
  1: { rewrite changeFile_disabled in Hen by exact Hv. discriminate. }
  1: { rewrite submitCreate_disabled in Hen by exact Hv. discriminate. }
  all: simpl in He |- *; unfold_handlers.
  all: repeat match goal with o : FetchOutcome _ |- _ => destruct o end.
  all: simpl in He |- *.
  all: split_match.
  all: try (split; [first [exact Hv | exact He] | reflexivity]).
Qed.

Lemma run_keeps_artifacts es st :
  truthy_prim (validationId st) = true -> Forall answers_with_id es ->
  truthy_prim (validationId (run st es)) = true /\ files (run st es) = files st.
Proof.
  revert st. induction es as [| e es IH]; intros st Hv Hes;
    [split; [exact Hv | reflexivity] |].
  inversion Hes as [| ? ? He Hes']; subst.
  destruct (step_keeps_artifacts st e Hv He) as [Hv' Hf'].
  destruct (IH (step st e) Hv' Hes') as [Hv'' Hf''].
  simpl. split; [exact Hv'' | congruence].
Qed.

(** While [validationId] is truthy no event at all changes [files]. *)
Lemma step_keeps_files st e :
  truthy_prim (validationId st) = true -> files (step st e) = files st.
Proof.
  intros Hv. unfold step.
  destruct (enabled st e) eqn:Hen; [| reflexivity].
  destruct e.
  1: { rewrite changeFile_disabled in Hen by exact Hv. discriminate. }
  1: { rewrite submitCreate_disabled in Hen by exact Hv. discriminate. }
  all: simpl; unfold_handlers.
  all: repeat match goal with o : FetchOutcome _ |- _ => destruct o end.
  all: simpl.
  all: split_match.
  all: reflexivity.
Qed.

(** An event that is not the answer to a create or a load keeps the
    validation and the names shown. *)
Lemma step_keeps_validation st e :
  truthy_prim (validationId st) = true -> replaces_validation e = false ->
  validationId (step st e) = validationId st /\ fileNames (step st e) = fileNames st.
Proof.
  intros Hv He. unfold step.
  destruct (enabled st e) eqn:Hen; [| split; reflexivity].
  destruct e.
  1: { rewrite changeFile_disabled in Hen by exact Hv. discriminate. }
  1: { rewrite submitCreate_disabled in Hen by exact Hv. discriminate. }
  all: simpl in He |- *; unfold_handlers.
  all: repeat match goal with o : FetchOutcome _ |- _ => destruct o end.
  all: simpl in He |- *; try discriminate He.
  all: split_match.
  all: split; reflexivity.
Qed.

Lemma run_keeps_validation es st :
  truthy_prim (validationId st) = true ->
  Forall (fun e => replaces_validation e = false) es ->
  validationId (run st es) = validationId st
  /\ fileNames (run st es) = fileNames st
  /\ files (run st es) = files st.
Proof.
  revert st. induction es as [| e es IH]; intros st Hv Hes;
    [repeat split |].
  inversion Hes as [| ? ? He Hes']; subst.
  destruct (step_keeps_validation st e Hv He) as [Hid Hnames].
  pose proof (step_keeps_files st e Hv) as Hfiles.
  assert (Hv' : truthy_prim (validationId (step st e)) = true) by (rewrite Hid; exact Hv).
  destruct (IH (step st e) Hv' Hes') as (Hid' & Hnames' & Hfiles').
  simpl. repeat split; congruence.
Qed.

(** C3, amended: when [validationId] is set (truthy), the five file inputs
    (documentation, training script, trained model, training dataset, test
    dataset) are drawn with their button and their input disabled and the
    submit button of the create form is disabled; a change of a file input
    or a submit of the form then leaves the state as it is and sends
    nothing, and no event at all changes [files].  This lasts as long as
    the validation is kept: along events none of which is the answer to a
    create or to a load, [validationId], [fileNames] and [files] stay what
    they were and the controls stay disabled.  The Load form is never
    disabled by [validationId], and the answer to a load replaces
    [validationId] and [fileNames]; if every such answer carries an id, the
    controls stay disabled and [files] stays what it was. *)
Theorem artifacts_locked_while_validation_kept st :
  truthy_prim (validationId st) = true ->
  fi_name <$> artifactInputs (render_createForm st)
  = ["documentation"; "trainingScript"; "trainedModel"; "trainingDataset";
     "testDataset"]
  /\ createForm_locked st
  /\ (forall name fileList,
        step st (ChangeFile name fileList) = st
        /\ requests st (ChangeFile name fileList) = [])
  /\ step st SubmitCreateForm = st
  /\ requests st SubmitCreateForm = []
  /\ (forall e, files (step st e) = files st)
  /\ (forall es, Forall (fun e => replaces_validation e = false) es ->
        validationId (run st es) = validationId st
        /\ fileNames (run st es) = fileNames st
        /\ files (run st es) = files st
        /\ createForm_locked (run st es))
  /\ (forall es, Forall answers_with_id es ->
        files (run st es) = files st /\ createForm_locked (run st es)).
Proof.
  intros Hv. split; [reflexivity |]. split; [apply createForm_disabled, Hv |].
  split; [| split; [| split; [| split; [| split]]]].
  - intros name fileList. unfold step, requests.
    rewrite changeFile_disabled by exact Hv. split; reflexivity.
  - unfold step. rewrite submitCreate_disabled by exact Hv. reflexivity.
  - unfold requests. rewrite submitCreate_disabled by exact Hv. reflexivity.
  - intros e. apply step_keeps_files, Hv.
  - intros es Hes. destruct (run_keeps_validation es st Hv Hes) as (Hid & Hnames & Hfiles).
    split; [exact Hid |]. split; [exact Hnames |]. split; [exact Hfiles |].
    apply createForm_disabled. rewrite Hid. exact Hv.
  - intros es Hes. destruct (run_keeps_artifacts es st Hv Hes) as [Hv' Hf'].
    split; [exact Hf' | apply createForm_disabled, Hv'].
Qed.

Lemma artifacts_locked_while_validation_kept_witness :
  truthy_prim (validationId session_uploaded) = true
  /\ createForm_locked session_uploaded
  /\ step session_uploaded SubmitCreateForm = session_uploaded
  /\ files (run session_uploaded [ClickNewTest; ChangeDescription 0 "Backtest"])
     = files session_uploaded.
Proof.
  split; [reflexivity |].
  pose proof (artifacts_locked_while_validation_kept session_uploaded eq_refl)
    as (_ & Hlocked & _ & Hsubmit & _ & _ & Hkept & _).
  split; [exact Hlocked |]. split; [exact Hsubmit |].
  refine (proj1 (proj2 (proj2 (Hkept [ClickNewTest; ChangeDescription 0 "Backtest"] _)))).
  repeat constructor.
Defined.

(** C3 as the spec words it fails.  With the validation [v1] created from
    an uploaded documentation file, the load form is enabled; loading [v2]
    replaces [validationId] and the file name shown while [files] still
    holds the upload made for [v1]; and after an answer without
    [validation_id] the controls are enabled again: a file can be chosen,
    which changes [files], and the create form can be submitted. *)
Lemma artifacts_replaced_by_load :
  reachable session_uploaded
  /\ validationId session_uploaded = PStr "v1"
  /\ fileName "documentation" session_uploaded = JPrim (PStr "doc.md")
  /\ Forall answers_with_id (load_v2_events validation_v2)
  /\ validationId (run session_uploaded (load_v2_events validation_v2)) = PStr "v2"
  /\ fileName "documentation" (run session_uploaded (load_v2_events validation_v2))
     = JPrim (PStr "other.md")
  /\ files (run session_uploaded (load_v2_events validation_v2)) !! "documentation"
     = Some chosenFile
  /\ ~ createForm_locked (run session_uploaded (load_v2_events validation_without_id))
  /\ enabled (run session_uploaded (load_v2_events validation_without_id))
       SubmitCreateForm = true
  /\ files (run session_uploaded
              (load_v2_events validation_without_id
               ++ [ChangeFile "documentation" [{| file_name := "new.md"; file_blob := 2 |}]]))
       !! "documentation"
     = Some {| file_name := "new.md"; file_blob := 2 |}
  /\ ~ spec_artifacts_immutable.
Proof.
  assert (Hr : reachable session_uploaded).
  { unfold session_uploaded, run. simpl. repeat apply reachable_step.
    apply reachable_initial. }
  split; [exact Hr |]. split; [reflexivity |]. split; [reflexivity |].
  split; [repeat constructor |]. split; [reflexivity |]. split; [reflexivity |].
  split; [reflexivity |].
  split.
  { intros [_ Hbutton]. vm_compute in Hbutton. discriminate Hbutton. }
  split; [reflexivity |]. split; [reflexivity |].
  intros Hspec.
  destruct (Hspec session_uploaded (load_v2_events validation_v2) Hr eq_refl)
    as [_ Hnames].
  apply (f_equal (fun names => names !! "documentation")) in Hnames.
  vm_compute in Hnames. discriminate Hnames.
Qed.

(** ** One request at a time for a test *)

(** The guards the two controls do have. *)
Lemma runTest_disabled_while_processing test :
  Test.isProcessing test = true -> runTest_disabled test = true.
Proof. intros H. unfold runTest_disabled. rewrite H. reflexivity. Qed.

Lemma followUp_disabled_while_submitting conv :
  TestConversation.submitting conv = true ->
  TestConversation.send_disabled conv = true
  /\ TestConversation.textarea_disabled conv = true.
Proof.
  intros H. unfold TestConversation.send_disabled, TestConversation.textarea_disabled.
  rewrite H. split; [apply orb_true_r | reflexivity].
Qed.

(** C6 at the failing input: while the Run Test request of the loaded test
    is in flight ([isProcessing] is true and Run Test is disabled), the
    follow-up form of the same test, with a message typed, has its submit
    button enabled, and submitting it sends a second execute-test request
    for the same test. *)
Theorem follow_up_enabled_while_run_in_flight :
  requests session_loaded_tab (ClickRunTest 0)
  = [{| req_method := "POST"; req_url := "/execute-test";
        req_body := JsonBody [("validation_id", JPrim (PStr "v1"));
                              ("test_id", JPrim (PStr "t-1"))] |}]
  /\ (exists test,
        customTests session_run_in_flight !! 0%nat = Some test
        /\ Test.isProcessing test = true
        /\ runTest_disabled test = true
        /\ conversation_rendered test = true)
  /\ TestConversation.send_disabled
       (TestConversation.setFollowUpMessage "fix the plot" TestConversation.initial)
     = false
  /\ enabled session_run_in_flight
       (SubmitFollowUp 0
          (TestConversation.setFollowUpMessage "fix the plot" TestConversation.initial))
     = true
  /\ requests session_run_in_flight
       (SubmitFollowUp 0
          (TestConversation.setFollowUpMessage "fix the plot" TestConversation.initial))
     = [{| req_method := "POST"; req_url := "/execute-test";
           req_body := JsonBody [("validation_id", JPrim (PStr "v1"));
                                 ("test_id", JPrim (PStr "t-1"));
                                 ("follow_up_message", JPrim (PStr "fix the plot"))] |}].
Proof.
  split; [reflexivity |]. split.
  - eexists. split; [reflexivity |]. repeat split.
  - repeat split.
Qed.

(** ** The follow-up message *)

(** A message that is empty after trimming is not handed to the callback,
    and nothing changes. *)
Lemma handleSubmit_blank conv :
  trim (TestConversation.followUpMessage conv) = EmptyString ->
  TestConversation.handleSubmit_begin conv = (conv, None).
Proof.
  intros H. unfold TestConversation.handleSubmit_begin. rewrite H. reflexivity.
Qed.

(** A message is handed to the callback only when its trimmed text is not
    empty, and it is the trimmed text. *)
Lemma handleSubmit_sends_trimmed conv conv' message :
  TestConversation.handleSubmit_begin conv = (conv', Some message) ->
  message = trim (TestConversation.followUpMessage conv) /\ message <> EmptyString.
Proof.
  unfold TestConversation.handleSubmit_begin. simpl.
  destruct (String.eqb_spec (trim (TestConversation.followUpMessage conv)) "")
    as [He | Hne]; simpl; intros H; [discriminate H |].
  injection H as _ <-. split; [reflexivity | exact Hne].
Qed.

(** Inside [TestConversation] the field is kept when the callback rejects
    and cleared when it resolves. *)
Lemma handleSubmit_settle_message completion conv :
  TestConversation.followUpMessage (TestConversation.handleSubmit_settle completion conv)
  = match completion with
    | Resolved => EmptyString
    | Rejected _ => TestConversation.followUpMessage conv
    end.
Proof. destruct completion; reflexivity. Qed.

(** The callback [FormComponent] passes never rejects: [handleTestSubmit]
    catches the failure of its request. *)
Lemma onSubmitFollowUp_always_resolves test outcome st :
  snd (onSubmitFollowUp_settle test outcome st) = Resolved.
Proof.
  unfold onSubmitFollowUp_settle, handleTestSubmit_settle.
  destruct (try_response outcome); reflexivity.
Qed.

(** C10 at the failing input: the follow-up request of the loaded test is
    answered with status 500; the test records the error, and the
    follow-up field, which held the message, is empty afterwards. *)
Theorem follow_up_cleared_after_failed_request :
  let conv := TestConversation.setFollowUpMessage "  fix the plot "
                TestConversation.initial in
  let result := followUp_round conv session_loaded_tab completedTest (FetchNotOk 500) in
  requests session_loaded_tab (SubmitFollowUp 0 conv)
  = [{| req_method := "POST"; req_url := "/execute-test";
        req_body := JsonBody [("validation_id", JPrim (PStr "v1"));
                              ("test_id", JPrim (PStr "t-1"));
                              ("follow_up_message", JPrim (PStr "fix the plot"))] |}]
  /\ Test.error <$> customTests (snd result) = ["HTTP error! status: 500"]
  /\ Test.results <$> customTests (snd result) = [Test.results completedTest]
  /\ TestConversation.followUpMessage (fst result) = EmptyString
  /\ TestConversation.submitting (fst result) = false.
Proof. repeat split. Qed.

(** The same for every message that is sent and every outcome. *)
Lemma follow_up_cleared_whatever_outcome conv st test outcome message conv1 :
  TestConversation.handleSubmit_begin conv = (conv1, Some message) ->
  TestConversation.followUpMessage (fst (followUp_round conv st test outcome))
  = EmptyString.
Proof.
  intros Hbegin. unfold followUp_round. rewrite Hbegin.
  destruct (onSubmitFollowUp_begin st test message st) as [st1 [request |]].
  - pose proof (onSubmitFollowUp_always_resolves test outcome st1) as Hres.
    destruct (onSubmitFollowUp_settle test outcome st1) as [st2 completion].
    simpl in Hres. subst completion. reflexivity.
  - reflexivity.
Qed.

(** ** The prompt for one test *)

Lemma append_assoc (a b c : string) : (a +:+ b) +:+ c = a +:+ (b +:+ c).
Proof.
  induction a as [| x a IH]; [reflexivity |].
  change (String x ((a +:+ b) +:+ c) = String x (a +:+ (b +:+ c))).
  f_equal. exact IH.
Qed.

Lemma starts_with_nil hay : starts_with EmptyString hay.
Proof. exists hay. reflexivity. Qed.

Lemma starts_with_cons c needle hay :
  starts_with needle hay -> starts_with (String c needle) (String c hay).
Proof. intros [after ->]. exists after. reflexivity. Qed.

Lemma starts_with_app value needle hay :
  starts_with needle hay -> starts_with (value +:+ needle) (value +:+ hay).
Proof. intros [after ->]. exists after. symmetry. apply append_assoc. Qed.

Lemma starts_with_value value hay : starts_with value (value +:+ hay).
Proof. exists hay. reflexivity. Qed.

Lemma contains_here needle hay : starts_with needle hay -> contains needle hay.
Proof. intros [after ->]. exists EmptyString, after. reflexivity. Qed.

Lemma contains_cons c needle hay : contains needle hay -> contains needle (String c hay).
Proof. intros (before & after & ->). exists (String c before), after. reflexivity. Qed.

Lemma contains_app value needle hay :
  contains needle hay -> contains needle (value +:+ hay).
Proof.
  intros (before & after & ->). exists (value +:+ before), after.
  symmetry. apply append_assoc.
Qed.

Lemma contains_app_l needle hay rest :
  contains needle hay -> contains needle (hay +:+ rest).
Proof.
  intros (before & after & ->). exists before, (after +:+ rest).
  rewrite !append_assoc. reflexivity.
Qed.

(** What occurs in a line occurs in the text. *)
Lemma contains_unlines needle line lines :
  line ∈ lines -> contains needle line -> contains needle (unlines lines).
Proof.
  intros Hin Hline. induction Hin as [line rest | line other rest _ IH].
  - apply (contains_app_l needle line (newline +:+ unlines rest)). exact Hline.
  - apply (contains_app other needle (newline +:+ unlines rest)).
    apply contains_app. exact (IH Hline).
Qed.

Ltac starts :=
  repeat first [ apply starts_with_nil | apply starts_with_cons
               | apply starts_with_value | apply starts_with_app ].

(** Search for the needle from left to right. *)
Ltac occurs :=
  lazymatch goal with
  | |- contains (String ?c _) (String ?c _) =>
      first [ apply contains_here; solve [starts] | apply contains_cons; occurs ]
  | |- contains _ (String _ _) => apply contains_cons; occurs
  | |- contains _ _ =>
      first [ apply contains_here; solve [starts] | apply contains_app; occurs ]
  end.

Ltac in_line l :=
  apply (contains_unlines _ l);
  [ unfold single_test_prompt_lines;
    repeat first [ apply list_elem_of_here | apply list_elem_of_further ]
  | cbv [String.append]; occurs ].

(** Rendering the template gives the lines with the values filled in. *)
Lemma render_independent_test_template documentation code train test pickle
    test_title test_description test_folder :
  render independent_test_template
    (single_test_vars documentation code train test pickle test_title
       test_description test_folder)
  = Some (unlines (single_test_prompt_lines documentation code train test pickle
                     test_title test_description test_folder)).
Proof.
  unfold single_test_prompt_lines, unlines. cbn [foldr].
  rewrite !append_assoc. vm_compute. reflexivity.
Qed.

(** C7: rendered with documentation, code, artifact paths, test title,
    description and test folder, [independent_test_template] gives a prompt
    that names the test and its description, asks for all the code in one
    block, in one single snippet between [```python] and [```] with no
    [```] inside, tells the code to create the test folder and save all
    outputs there, to handle errors so that execution is not interrupted,
    and to write a Markdown report called [report.md] saved inside the test
    folder. *)
Theorem single_test_prompt_instructs documentation code train test pickle
    test_title test_description test_folder :
  exists prompt,
    render independent_test_template
      (single_test_vars documentation code train test pickle test_title
         test_description test_folder) = Some prompt
    /\ contains ("implement a Python test " +:+ test_title +:+ ", ") prompt
    /\ contains ("described as " +:+ test_description +:+ ".") prompt
    /\ contains "All the code has to be in one block" prompt
    /\ contains ("1: The code should create the folder " +:+ test_folder
                 +:+ " to save all the outputs") prompt
    /\ contains ("save them inside " +:+ test_folder) prompt
    /\ contains "4: Do proper error handling to not interrupt the execution" prompt
    /\ contains ("5: Generate a report with Markdown called report.md, containing "
                 +:+ "the results, visualizations and save it " +:+ newline
                 +:+ "   inside " +:+ test_folder +:+ ".") prompt
    /\ contains "7: All the code should be inside one single snippet of Python code"
         prompt
    /\ contains "8: All the code should be between ```python and ```" prompt
    /\ contains "9: Never use ``` inside the code" prompt.
Proof.
  eexists. split; [apply render_independent_test_template |].
  repeat split.
  - in_line ("If you have a model " +:+ documentation +:+ " " +:+ code +:+ " "
             +:+ train +:+ " " +:+ test +:+ " " +:+ pickle
             +:+ ", implement a Python test " +:+ test_title +:+ ", ").
  - in_line ("described as " +:+ test_description +:+ ".").
  - in_line ("I want you to generate a self contained Python script that will be executed using the exec function in another Python process. All the code has to be in one block and has to contain a call to execute the test.").
  - in_line ("1: The code should create the folder " +:+ test_folder
             +:+ " to save all the outputs").
  - in_line ("2: Generate visualizations when possible and save them inside "
             +:+ test_folder
             +:+ ". Add titles to the axis and legends to all of them").
  - in_line ("4: Do proper error handling to not interrupt the execution").
  - unfold single_test_prompt_lines, unlines. cbn [foldr].
    rewrite !append_assoc. cbv [String.append newline]. occurs.
  - in_line ("7: All the code should be inside one single snippet of Python code").
  - in_line ("8: All the code should be between ```python and ```").
  - in_line ("9: Never use ``` inside the code").
Qed.

(** * Further properties of the components *)

(** ** Clicking Run Test *)

Lemma find_test_unique (tests : list Test.t) (i : nat) (T : Test.t) :
  NoDup (Test.id <$> tests) -> tests !! i = Some T ->
  find_test (Test.id T) tests = Some T.
Proof.
  revert i. induction tests as [| x rest IH]; intros i Hnd Hi; [discriminate |].
  rewrite fmap_cons in Hnd. apply NoDup_cons in Hnd as [Hx Hnd].
  unfold find_test. simpl. destruct (Z.eqb_spec (Test.id x) (Test.id T)) as [He | Hne].
  - destruct i as [| i]; simpl in Hi; [congruence |].
    exfalso. apply Hx. rewrite He. apply list_elem_of_fmap. exists T.
    split; [reflexivity |]. apply list_elem_of_lookup. eauto.
  - destruct i as [| i]; simpl in Hi; [congruence |].
    apply (IH i Hnd Hi).
Qed.

Lemma find_test_self (tests : list Test.t) (i : nat) (T : Test.t) :
  tests !! i = Some T -> exists T', find_test (Test.id T) tests = Some T'.
Proof.
  revert i. induction tests as [| x rest IH]; intros i Hi; [discriminate |].
  unfold find_test. simpl. destruct (Z.eqb_spec (Test.id x) (Test.id T)); [eauto |].
  destruct i as [| i]; simpl in Hi; [congruence |]. apply (IH i Hi).
Qed.

(** ** A request in flight *)











(** A load that replaces the list in between does end the lock: in the
    session where [t-7] was reloaded while its request was in flight, Run
    Test on [t-7] is enabled again and sends the same request a second
    time. *)
Example run_test_enabled_again_after_reload :
  requests (step session_loaded_two (SelectTab "test-2")) (ClickRunTest 1)
  = [{| req_method := "POST"; req_url := "/execute-test";
        req_body := JsonBody [("validation_id", JPrim (PStr "v1"));
                              ("test_id", JPrim (PStr "t-7"))] |}]
  /\ requests (step session_reloaded (SelectTab "test-1")) (ClickRunTest 0)
     = [{| req_method := "POST"; req_url := "/execute-test";
           req_body := JsonBody [("validation_id", JPrim (PStr "v1"));
                                 ("test_id", JPrim (PStr "t-7"))] |}].
Proof. split; reflexivity. Qed.

(** ** What is sent to [/execute-test] *)

(** Only four keys are ever put in the body: the title of a test, in
    particular, is not sent. *)
Theorem execute_test_body_keys validationId test testId followUpMessage key :
  has_key key (requestBody validationId test testId followUpMessage) = true ->
  key ∈ ["validation_id"; "test_id"; "description"; "follow_up_message"].
Proof.
  unfold has_key. intros H. apply existsb_exists in H as ([k v] & Hin & Hk).
  simpl in Hk. apply String.eqb_eq in Hk. subst key.
  unfold requestBody in Hin.
  destruct (negb (truthy_prim (Test.test_id test))),
    (truthy_prim followUpMessage); simpl in Hin;
    repeat (destruct Hin as [Hin | Hin];
            [injection Hin as <- _;
             repeat first [apply list_elem_of_here | apply list_elem_of_further] |]);
    contradiction.
Qed.

Lemma execute_test_body_keys_witness :
  has_key "description" (requestBody (PStr "v1") (newTest 1) 1 PNull) = true
  /\ "description" ∈ ["validation_id"; "test_id"; "description"; "follow_up_message"].
Proof.
  split; [reflexivity |].
  apply (execute_test_body_keys (PStr "v1") (newTest 1) 1 PNull "description").
  reflexivity.
Defined.

(** Every execute-test request an event sends carries the current, truthy
    [validationId] and a [test_id] that is not [undefined]. *)
Theorem execute_test_requests_carry_ids st e req :
  req ∈ requests st e -> req_url req = "/execute-test" ->
  truthy_prim (validationId st) = true
  /\ req_method req = "POST"
  /\ exists body,
       req_body req = JsonBody body
       /\ get_field "validation_id" body = JPrim (validationId st)
       /\ is_undefined (get_field "test_id" body) = false.
Proof.
  intros Hin Hurl. unfold requests in Hin.
  destruct (enabled st e); [| inversion Hin].
  assert (Hsubmit : forall closure testId fu s,
             closure = st ->
             req ∈ option_list (snd (handleTestSubmit_begin closure testId fu s)) ->
             truthy_prim (validationId st) = true
             /\ req_method req = "POST"
             /\ exists body,
                  req_body req = JsonBody body
                  /\ get_field "validation_id" body = JPrim (validationId st)
                  /\ is_undefined (get_field "test_id" body) = false).
  { intros closure testId fu s -> Hreq. unfold handleTestSubmit_begin in Hreq.
    destruct (find_test testId (customTests st)) as [test |]; [| inversion Hreq].
    destruct (truthy_prim (validationId st)) eqn:Hv; simpl in Hreq; [| inversion Hreq].
    apply list_elem_of_singleton in Hreq. subst req. simpl.
    split; [reflexivity |]. split; [reflexivity |]. eexists. split; [reflexivity |].
    split; [reflexivity |]. apply prim_or_defined. }
  destruct e; try (inversion Hin; fail).
  - apply list_elem_of_singleton in Hin. subst req. discriminate Hurl.
  - apply list_elem_of_singleton in Hin. subst req. simpl in Hurl.
    exfalso. revert Hurl. generalize (loadValidationId st). intros s Hs.
    discriminate Hs.
  - destruct (customTests st !! index); [| inversion Hin].
    eapply Hsubmit; [reflexivity | exact Hin].
  - destruct (customTests st !! index); [| inversion Hin].
    destruct (TestConversation.handleSubmit_begin conv).2; [| inversion Hin].
    unfold onSubmitFollowUp_begin in Hin. eapply Hsubmit; [reflexivity | exact Hin].
  - unfold confirmDelete_begin in Hin. destruct (testToDelete st) as [T |]; [| inversion Hin].
    destruct (truthy_prim (Test.test_id T)) eqn:HT; [| inversion Hin].
    simpl in Hin. unfold handleDeleteTest_begin in Hin. rewrite HT in Hin. simpl in Hin.
    apply list_elem_of_singleton in Hin. subst req. simpl in Hurl.
    discriminate Hurl.
  - unfold handleGenerateReport_begin in Hin.
    destruct (negb (truthy_prim (validationId st))); [inversion Hin |].
    simpl in Hin. apply list_elem_of_singleton in Hin. subst req. simpl in Hurl.
    discriminate Hurl.
Qed.

Lemma execute_test_requests_carry_ids_witness :
  truthy_prim (validationId session_described) = true
  /\ exists req,
       req ∈ requests session_described (ClickRunTest 0)
       /\ req_url req = "/execute-test" /\ req_method req = "POST".
Proof.
  split; [reflexivity |]. eexists. split; [apply list_elem_of_here |].
  split; [reflexivity |].
  exact (proj1 (proj2 (execute_test_requests_carry_ids session_described
                         (ClickRunTest 0) _ (list_elem_of_here _ _) eq_refl))).
Defined.

(** ** A submission that succeeds *)



(** Once a test has a backend [test_id], typing in its description or its
    title changes no request that is sent for it. *)
Theorem edits_not_sent_after_first_run validationId T testId followUpMessage value :
  truthy_prim (Test.test_id T) = true ->
  requestBody validationId (spread_description value T) testId followUpMessage
  = requestBody validationId T testId followUpMessage
  /\ requestBody validationId (spread_title value T) testId followUpMessage
     = requestBody validationId T testId followUpMessage.
Proof.
  intros Htid. unfold requestBody. simpl. rewrite Htid. split; reflexivity.
Qed.

Lemma edits_not_sent_after_first_run_witness :
  truthy_prim (Test.test_id completedTest) = true
  /\ requestBody (PStr "v1") (spread_description "another text" completedTest) 1 PNull
     = requestBody (PStr "v1") completedTest 1 PNull.
Proof.
  split; [reflexivity |].
  exact (proj1 (edits_not_sent_after_first_run (PStr "v1") completedTest 1 PNull
                  "another text" eq_refl)).
Defined.

Lemma update_test_absent testId f (tests : list Test.t) :
  (forall t, t ∈ tests -> Test.id t <> testId) -> update_test testId f tests = tests.
Proof.
  intros Hall. unfold update_test. induction tests as [| x rest IH]; [reflexivity |].
  rewrite fmap_cons. f_equal.
  - destruct (Z.eqb_spec (Test.id x) testId) as [He | _]; [| reflexivity].
    exfalso. exact (Hall x (list_elem_of_here _ _) He).
  - apply IH. intros t Ht. apply Hall. apply list_elem_of_further. exact Ht.
Qed.

(** A response for an id that no displayed test has (the test was deleted
    or replaced by a load meanwhile) changes nothing. *)
Theorem late_response_for_absent_test_dropped st testId outcome :
  (forall t, t ∈ customTests st -> Test.id t <> testId) ->
  fst (handleTestSubmit_settle testId outcome st) = st.
Proof.
  intros Hall. unfold handleTestSubmit_settle.
  destruct (try_response outcome); simpl;
    rewrite update_test_absent by exact Hall; destruct st; reflexivity.
Qed.

Lemma late_response_for_absent_test_dropped_witness :
  fst (handleTestSubmit_settle 5 (FetchNotOk 500) session_two_tests) = session_two_tests.
Proof.
  apply (late_response_for_absent_test_dropped session_two_tests 5 (FetchNotOk 500)).
  intros t Hin. apply list_elem_of_In in Hin. simpl in Hin.
  destruct Hin as [<- | [<- | []]]; discriminate.
Defined.

(** ** From click to settlement *)

(** In a reachable state the request of Run Test is built from the test
    whose button was clicked. *)
Theorem run_test_request_of_clicked_test st i T :
  reachable st -> customTests st !! i = Some T ->
  enabled st (ClickRunTest i) = true ->
  truthy_prim (validationId st) = true ->
  requests st (ClickRunTest i)
  = [{| req_method := "POST"; req_url := "/execute-test";
        req_body := JsonBody (requestBody (validationId st) T (Test.id T) PNull) |}].
Proof.
  intros Hr Hi Hen Hv. unfold requests. rewrite Hen, Hi.
  destruct (reachable_ids_below st Hr) as [Hnd _].
  rewrite (handleTestSubmit_begin_request st (Test.id T) PNull st T
             (find_test_unique _ _ _ Hnd Hi) Hv).
  reflexivity.
Qed.

Lemma run_test_request_of_clicked_test_witness :
  requests session_loaded_tab (ClickRunTest 0)
  = [{| req_method := "POST"; req_url := "/execute-test";
        req_body := JsonBody (requestBody (validationId session_loaded_tab)
                                completedTest (Test.id completedTest) PNull) |}].
Proof.
  apply (run_test_request_of_clicked_test session_loaded_tab 0 completedTest).
  - unfold session_loaded_tab, session_loaded. repeat apply reachable_step.
    apply reachable_initial.
  - reflexivity.
  - reflexivity.
  - reflexivity.
Defined.

(** Whatever the outcome of the request, once it has settled the Run Test
    button of the test is enabled again. *)
Theorem run_test_enabled_again_after_settle st i T outcome :
  customTests st !! i = Some T ->
  enabled st (ClickRunTest i) = true ->
  enabled (step (step st (ClickRunTest i)) (TestSettled (Test.id T) outcome))
    (ClickRunTest i) = true.
Proof.
  intros Hi Hen. pose proof Hen as Hen'. unfold enabled, onTestTab in Hen'.
  rewrite Hi in Hen'. apply andb_prop in Hen' as [Htab Hrun].
  unfold runTest_disabled in Hrun. apply negb_true_iff in Hrun.
  apply orb_false_elim in Hrun as [Hproc Hdesc]. apply negb_false_iff in Hdesc.
  unfold step at 2. rewrite Hen. simpl handle. rewrite Hi.
  unfold step. simpl enabled. simpl handle.
  destruct (find_test_self _ _ _ Hi) as [found Hfound].
  unfold handleTestSubmit_begin. rewrite Hfound.
  assert (Hgoal : forall tests',
             tests' !! i = Some T \/ tests' !! i = Some (spread_processing T) ->
             forall st', activeTab st' = activeTab st ->
             customTests st' = tests' ->
             enabled (fst (handleTestSubmit_settle (Test.id T) outcome st'))
               (ClickRunTest i) = true).
  { intros tests' Hi' st' Htab' Htests'. unfold handleTestSubmit_settle.
    destruct (try_response outcome) as [m | r]; simpl;
      unfold enabled, onTestTab; destruct st'; simpl in *; subst;
      destruct Hi' as [Hi' | Hi'];
      rewrite (update_test_hit _ _ _ _ _ Hi' eq_refl);
      unfold runTest_disabled, tabValue in *; simpl; rewrite Htab, Hdesc;
      reflexivity. }
  destruct (negb (truthy_prim (validationId st))); simpl.
  - apply (Hgoal (customTests st)); [left; exact Hi | reflexivity | reflexivity].
  - apply (Hgoal (update_test (Test.id T) spread_processing (customTests st))).
    + right. apply update_test_hit; [exact Hi | reflexivity].
    + reflexivity.
    + reflexivity.
Qed.

Lemma run_test_enabled_again_after_settle_witness :
  enabled (step (step session_loaded_tab (ClickRunTest 0))
             (TestSettled 1 (FetchNotOk 500))) (ClickRunTest 0) = true.
Proof.
  apply (run_test_enabled_again_after_settle session_loaded_tab 0 completedTest
           (FetchNotOk 500)); reflexivity.
Defined.

(** ** Deleting through the dialog *)



(** The dialog opened by the [×] of a tab is about the test of that tab;
    opening it changes neither the list nor sends a request, and closing it
    without confirming leaves the list as it was. *)
Theorem delete_dialog_targets_clicked_test st i T :
  reachable st -> customTests st !! i = Some T ->
  testToDelete (step st (ClickDeleteTest i)) = Some T
  /\ customTests (step st (ClickDeleteTest i)) = customTests st
  /\ requests st (ClickDeleteTest i) = []
  /\ customTests (step (step st (ClickDeleteTest i)) CloseDeleteDialog) = customTests st
  /\ testToDelete (step (step st (ClickDeleteTest i)) CloseDeleteDialog) = None
  /\ requests (step st (ClickDeleteTest i)) CloseDeleteDialog = [].
Proof.
  intros Hr Hi. destruct (reachable_ids_below st Hr) as [Hnd _].
  assert (Hstep : step st (ClickDeleteTest i) = set_testToDelete (Some T) st).
  { unfold step, enabled. rewrite Hi. simpl. rewrite Hi. unfold removeCustomTest.
    rewrite (find_test_unique _ _ _ Hnd Hi). reflexivity. }
  rewrite Hstep. split; [reflexivity |]. split; [reflexivity |].
  split; [unfold requests; destruct (enabled st (ClickDeleteTest i)); reflexivity |].
  repeat split.
Qed.

Lemma delete_dialog_targets_clicked_test_witness :
  testToDelete (step session_two_tests (ClickDeleteTest 1)) = Some (newTest 2)
  /\ customTests (step session_two_tests (ClickDeleteTest 1))
     = customTests session_two_tests.
Proof.
  pose proof (delete_dialog_targets_clicked_test session_two_tests 1 (newTest 2))
    as H.
  destruct H as (Htarget & Hlist & _).
  - unfold session_two_tests, session_created. repeat apply reachable_step.
    apply reachable_initial.
  - reflexivity.
  - split; [exact Htarget | exact Hlist].
Defined.



(** Every DELETE request is for the saved test the dialog is about. *)
Theorem delete_requests_for_saved_tests st e req :
  req ∈ requests st e -> req_method req = "DELETE" ->
  exists T,
    e = ClickConfirmDelete /\ testToDelete st = Some T
    /\ truthy_prim (Test.test_id T) = true
    /\ req_url req = "/test/" +:+ to_string (validationId st) +:+ "/"
                     +:+ to_string (Test.test_id T).
Proof.
  intros Hin Hm. unfold requests in Hin.
  destruct (enabled st e); [| inversion Hin].
  destruct e; try (inversion Hin; fail).
  - apply list_elem_of_singleton in Hin. subst req. discriminate Hm.
  - apply list_elem_of_singleton in Hin. subst req. discriminate Hm.
  - destruct (customTests st !! index); [| inversion Hin].
    unfold handleTestSubmit_begin in Hin.
    destruct (find_test _ _); [| inversion Hin].
    destruct (negb _); [inversion Hin |]. simpl in Hin.
    apply list_elem_of_singleton in Hin. subst req. discriminate Hm.
  - destruct (customTests st !! index); [| inversion Hin].
    destruct (TestConversation.handleSubmit_begin conv).2; [| inversion Hin].
    unfold onSubmitFollowUp_begin, handleTestSubmit_begin in Hin.
    destruct (find_test _ _); [| inversion Hin].
    destruct (negb _); [inversion Hin |]. simpl in Hin.
    apply list_elem_of_singleton in Hin. subst req. discriminate Hm.
  - unfold confirmDelete_begin in Hin. destruct (testToDelete st) as [T |]; [| inversion Hin].
    destruct (truthy_prim (Test.test_id T)) eqn:HT; [| inversion Hin].
    simpl in Hin. unfold handleDeleteTest_begin in Hin. rewrite HT in Hin. simpl in Hin.
    apply list_elem_of_singleton in Hin. subst req.
    exists T. repeat split. exact HT.
  - unfold handleGenerateReport_begin in Hin.
    destruct (negb (truthy_prim (validationId st))); [inversion Hin |].
    simpl in Hin. apply list_elem_of_singleton in Hin. subst req. discriminate Hm.
Qed.

Lemma delete_requests_for_saved_tests_witness :
  exists T,
    ClickConfirmDelete = ClickConfirmDelete
    /\ testToDelete (step session_loaded (ClickDeleteTest 0)) = Some T
    /\ truthy_prim (Test.test_id T) = true
    /\ "/test/v1/t-1"
       = "/test/" +:+ to_string (validationId (step session_loaded (ClickDeleteTest 0)))
         +:+ "/" +:+ to_string (Test.test_id T).
Proof.
  exact (delete_requests_for_saved_tests (step session_loaded (ClickDeleteTest 0))
           ClickConfirmDelete
           {| req_method := "DELETE"; req_url := "/test/v1/t-1"; req_body := NoBody |}
           (list_elem_of_here _ _) eq_refl).
Defined.

(** ** Tabs *)

Lemma append_inj_l (p a b : string) : p +:+ a = p +:+ b -> a = b.
Proof.
  induction p as [| c p IH]; intros H; [exact H |].
  change (String c (p +:+ a) = String c (p +:+ b)) in H.
  injection H as H. apply IH, H.
Qed.

Lemma tabValue_inj (A B : Test.t) : tabValue A = tabValue B -> Test.id A = Test.id B.
Proof.
  unfold tabValue. intros H. apply append_inj_l in H.
  apply (inj pretty) in H. exact H.
Qed.

(** In a reachable state the content of at most one tab is drawn: the
    active tab value names at most one test, and never a test together
    with the main form. *)
Theorem one_tab_content_drawn st i j :
  reachable st ->
  (onTestTab st i = true -> onTestTab st j = true -> i = j)
  /\ (onMainTab st = true -> onTestTab st i = false).
Proof.
  intros Hr. destruct (reachable_ids_below st Hr) as [Hnd _]. split.
  - unfold onTestTab. intros Hi Hj.
    destruct (customTests st !! i) as [A |] eqn:HA; [| discriminate Hi].
    destruct (customTests st !! j) as [B |] eqn:HB; [| discriminate Hj].
    apply String.eqb_eq in Hi, Hj.
    assert (He : Test.id A = Test.id B) by (apply tabValue_inj; congruence).
    eapply NoDup_lookup; [exact Hnd | |].
    + rewrite list_lookup_fmap, HA. reflexivity.
    + rewrite list_lookup_fmap, HB. simpl. congruence.
  - unfold onMainTab, onTestTab. intros Hmain.
    destruct (customTests st !! i) as [A |]; [| reflexivity].
    apply String.eqb_eq in Hmain. rewrite Hmain.
    apply String.eqb_neq. unfold tabValue. intros H. discriminate H.
Qed.

Lemma one_tab_content_drawn_witness :
  (onTestTab session_two_tests 1 = true -> onTestTab session_two_tests 1 = true ->
   1%nat = 1%nat)
  /\ (onMainTab session_two_tests = true -> onTestTab session_two_tests 1 = false).
Proof.
  apply (one_tab_content_drawn session_two_tests 1 1).
  unfold session_two_tests, session_created. repeat apply reachable_step.
  apply reachable_initial.
Defined.

(** The New Test button appends a test, shows its tab, and leaves its Run
    Test button disabled until a description is typed. *)
Theorem new_test_shown_and_not_runnable st value :
  truthy_prim (validationId st) = true ->
  let i := length (customTests st) in
  let st1 := step st ClickNewTest in
  customTests st1 = customTests st ++ [newTest (nextTestId st)]
  /\ onTestTab st1 i = true
  /\ enabled st1 (ClickRunTest i) = false
  /\ enabled (step st1 (ChangeDescription i value)) (ClickRunTest i)
     = negb (String.eqb value "").
Proof.
  intros Hv i st1.
  assert (Hst1 : st1 = addCustomTest st).
  { subst st1. unfold step, enabled. rewrite Hv. reflexivity. }
  clearbody st1. subst st1.
  assert (Hi : customTests (addCustomTest st) !! i = Some (newTest (nextTestId st))).
  { unfold addCustomTest. simpl. subst i.
    rewrite lookup_app_r by lia. rewrite Nat.sub_diag. reflexivity. }
  assert (Htab : onTestTab (addCustomTest st) i = true).
  { unfold onTestTab. rewrite Hi. apply String.eqb_refl. }
  split; [reflexivity |]. split; [exact Htab |]. split.
  - unfold enabled. rewrite Htab, Hi. reflexivity.
  - unfold step. unfold enabled at 2. rewrite Htab. unfold handle. rewrite Hi.
    unfold handleTestDescriptionChange, enabled, onTestTab.
    cbn [customTests set_customTests activeTab].
    rewrite (update_test_hit _ _ _ _ _ Hi eq_refl).
    change (activeTab (addCustomTest st)) with (tabValue (newTest (nextTestId st))).
    change (tabValue (spread_description value (newTest (nextTestId st))))
      with (tabValue (newTest (nextTestId st))).
    rewrite String.eqb_refl. unfold runTest_disabled. simpl.
    destruct (String.eqb value ""); reflexivity.
Qed.

Lemma new_test_shown_and_not_runnable_witness :
  truthy_prim (validationId session_created) = true
  /\ enabled (step session_created ClickNewTest) (ClickRunTest 0) = false
  /\ enabled (step (step session_created ClickNewTest)
                (ChangeDescription 0 "Compare predictions to historical defaults"))
       (ClickRunTest 0) = true.
Proof.
  split; [reflexivity |].
  pose proof (new_test_shown_and_not_runnable session_created
                "Compare predictions to historical defaults" eq_refl)
    as (_ & _ & Hoff & Hon).
  split; [exact Hoff | exact Hon].
Defined.

(** ** Creating and loading *)

(** Only the settlement of a create or of a load clears [isCreating]. *)
Lemma step_keeps_isCreating st e :
  isCreating st = true -> settles_create_or_load e = false ->
  isCreating (step st e) = true.
Proof.
  intros Hbusy He. unfold step. destruct (enabled st e); [| exact Hbusy].
  destruct e; simpl in He |- *; try discriminate He;
    unfold handleFileChange, handleLoadDialogOpen, addCustomTest,
      handleTestTitleChange, handleTestDescriptionChange, removeCustomTest,
      onSubmitFollowUp_begin, handleTestSubmit_begin, handleTestSubmit_settle,
      confirmDelete_begin, confirmDelete_settle, handleDeleteTest_settle,
      handleGenerateReport_begin, handleGenerateReport_settle;
    split_match; first [exact Hbusy | reflexivity].
Qed.

Lemma run_keeps_isCreating es st :
  isCreating st = true -> Forall (fun e => settles_create_or_load e = false) es ->
  isCreating (run st es) = true.
Proof.
  revert st. induction es as [| e es IH]; intros st Hbusy Hes; [exact Hbusy |].
  inversion Hes as [| ? ? He Hes']; subst. simpl.
  apply IH; [| exact Hes']. apply step_keeps_isCreating; assumption.
Qed.

(** From the submit of the create form or of the load form until a create
    or a load settles, whatever else happens, [isCreating] is true and
    neither form can be submitted: the submit changes nothing and sends no
    request. *)
Theorem create_and_load_one_at_a_time st e es e' :
  e = SubmitCreateForm \/ e = SubmitLoadForm ->
  e' = SubmitCreateForm \/ e' = SubmitLoadForm ->
  enabled st e = true ->
  Forall (fun e => settles_create_or_load e = false) es ->
  let now := run (step st e) es in
  isCreating now = true
  /\ enabled now e' = false
  /\ requests now e' = []
  /\ step now e' = now.
Proof.
  intros He He' Hen Hes now.
  assert (Hbusy : isCreating now = true).
  { apply run_keeps_isCreating; [| exact Hes].
    unfold step. rewrite Hen. destruct He as [-> | ->]; reflexivity. }
  assert (Hoff : enabled now e' = false).
  { destruct He' as [-> | ->]; unfold enabled, loadButton_disabled, render_createForm;
      simpl; rewrite Hbusy; simpl; rewrite ?orb_true_r, ?andb_false_r; reflexivity. }
  split; [exact Hbusy |]. split; [exact Hoff |].
  unfold requests, step. rewrite Hoff. split; reflexivity.
Qed.

Lemma create_and_load_one_at_a_time_witness :
  enabled initialState SubmitCreateForm = true
  /\ isCreating (run (step initialState SubmitCreateForm)
                   [OpenLoadDialog; ChangeLoadValidationId "v1"]) = true
  /\ enabled (run (step initialState SubmitCreateForm)
                [OpenLoadDialog; ChangeLoadValidationId "v1"]) SubmitLoadForm = false
  /\ requests (run (step initialState SubmitCreateForm)
                 [OpenLoadDialog; ChangeLoadValidationId "v1"]) SubmitLoadForm = [].
Proof.
  split; [reflexivity |].
  destruct (create_and_load_one_at_a_time initialState SubmitCreateForm
              [OpenLoadDialog; ChangeLoadValidationId "v1"] SubmitLoadForm
              (or_introl eq_refl) (or_intror eq_refl) eq_refl
              ltac:(repeat constructor))
    as (Hbusy & Hoff & Hreq & _).
  split; [exact Hbusy |]. split; [exact Hoff | exact Hreq].
Defined.

(** A load of which either request fails changes neither the validation
    nor the tests: only the error, the status and the busy flag. *)
Theorem failed_load_changes_nothing validationOutcome testsOutcome message st :
  try_response validationOutcome = inl message
  \/ (exists validationResult,
        validationOutcome = FetchOk validationResult
        /\ try_response testsOutcome = inl message) ->
  loadValidation validationOutcome testsOutcome st
  = set_isCreating false
      (set_status "Error loading validation" (set_error ("Error: " +:+ message) st)).
Proof.
  unfold loadValidation, handleLoadValidation_settle, handleLoadValidation_begin.
  intros [Hfail | (vr & -> & Hfail)].
  - rewrite Hfail. destruct st; reflexivity.
  - simpl try_response at 1. cbv iota. rewrite Hfail. destruct st; reflexivity.
Qed.

Lemma failed_load_changes_nothing_witness :
  customTests (loadValidation (FetchOk validation_v1) (FetchNotOk 500) session_two_tests)
  = customTests session_two_tests
  /\ validationId (loadValidation (FetchOk validation_v1) (FetchNotOk 500)
                     session_two_tests)
     = validationId session_two_tests.
Proof.
  rewrite (failed_load_changes_nothing (FetchOk validation_v1) (FetchNotOk 500)
             "HTTP error! status: 500" session_two_tests).
  - split; reflexivity.
  - right. exists validation_v1. split; reflexivity.
Defined.

(** Loading a validation that has no stored tests switches to its ids and
    file names but keeps the tests that were displayed, and [nextTestId]. *)
Theorem load_without_tests_keeps_displayed_tests validationResult st :
  let st' := loadValidation (FetchOk validationResult) (FetchOk []) st in
  validationId st' = vr_validation_id validationResult
  /\ executionId st' = vr_execution_id validationResult
  /\ fileNames st' = default defaultFileNames (vr_files validationResult)
  /\ customTests st' = customTests st
  /\ nextTestId st' = nextTestId st.
Proof. repeat split. Qed.

(** After a create request that failed the form can be submitted again with
    the files that were chosen; no validation id was set. *)
Theorem failed_create_can_be_retried st outcome message :
  enabled st SubmitCreateForm = true ->
  try_response outcome = inl message ->
  let st' := step (step st SubmitCreateForm) (CreateSettled outcome) in
  enabled st' SubmitCreateForm = true
  /\ validationId st' = validationId st
  /\ files st' = files st
  /\ customTests st' = customTests st
  /\ error st' = "Error: " +:+ message
  /\ requests st' SubmitCreateForm = requests st SubmitCreateForm.
Proof.
  intros Hen Hfail st'.
  assert (Hst' : st' = set_isCreating false
                         (set_status "Error creating validation"
                            (set_error ("Error: " +:+ message) st))).
  { subst st'. unfold step. rewrite Hen. simpl.
    unfold handleCreateValidation_settle. rewrite Hfail. destruct st; reflexivity. }
  clearbody st'. subst st'.
  pose proof Hen as Hen'. unfold enabled in Hen'.
  apply andb_prop in Hen' as [Hmain Hbtn]. apply negb_true_iff in Hbtn.
  unfold render_createForm, prim_or in Hbtn. simpl in Hbtn.
  destruct (isCreating st) eqn:Hc; [discriminate Hbtn |]. simpl in Hbtn.
  assert (Hen2 : enabled (set_isCreating false
                            (set_status "Error creating validation"
                               (set_error ("Error: " +:+ message) st)))
                   SubmitCreateForm = true).
  { unfold enabled, onMainTab, render_createForm, prim_or. simpl.
    unfold onMainTab in Hmain. rewrite Hmain, Hbtn. reflexivity. }
  split; [exact Hen2 |]. do 4 (split; [reflexivity |]).
  unfold requests. rewrite Hen, Hen2. reflexivity.
Qed.

Lemma failed_create_can_be_retried_witness :
  enabled initialState SubmitCreateForm = true
  /\ enabled (step (step initialState SubmitCreateForm)
                (CreateSettled (FetchThrew "Failed to fetch"))) SubmitCreateForm = true.
Proof.
  split; [reflexivity |].
  exact (proj1 (failed_create_can_be_retried initialState
                  (FetchThrew "Failed to fetch") "Failed to fetch" eq_refl eq_refl)).
Defined.



(** ** Local ids are positive *)

Lemma ids_positive_update testId f tests next :
  (forall t, Test.id (f t) = Test.id t) ->
  ids_positive tests next -> ids_positive (update_test testId f tests) next.
Proof.
  intros Hf [Hn Hall]. split; [exact Hn |].
  intros t' Hin. apply update_test_elem in Hin as (t & Ht & [-> | ->]).
  - auto.
  - rewrite Hf. auto.
Qed.

Lemma ids_positive_filter (P : Test.t -> Prop) `{!forall t, Decision (P t)} tests next :
  ids_positive tests next -> ids_positive (filter P tests) next.
Proof.
  intros [Hn Hall]. split; [exact Hn |].
  intros t Hin. apply list_elem_of_filter in Hin as [_ Hin]. auto.
Qed.

Lemma Math_max_0_nonneg (xs : list Z) : 0 <= Math_max_0 xs.
Proof. unfold Math_max_0. induction xs as [| x xs IH]; simpl; lia. Qed.

Lemma ids_positive_loaded (tests : list TestData) :
  ids_positive (loadedTests tests) (Math_max_0 (Test.id <$> loadedTests tests) + 1).
Proof.
  split.
  - pose proof (Math_max_0_nonneg (Test.id <$> loadedTests tests)). lia.
  - intros t Hin. unfold loadedTests in Hin.
    apply elem_of_lookup_imap in Hin as (i & td & -> & _). simpl. lia.
Qed.

Lemma ids_positive_add tests next :
  ids_positive tests next -> ids_positive (tests ++ [newTest next]) (next + 1).
Proof.
  intros [Hn Hall]. split; [lia |].
  intros t Hin. apply elem_of_app in Hin as [Hin | Hin]; [auto |].
  apply list_elem_of_singleton in Hin. subst t. exact Hn.
Qed.

Ltac positive_tac Hinv :=
  first [ exact Hinv
        | apply ids_positive_loaded
        | apply ids_positive_add; exact Hinv
        | apply ids_positive_filter; exact Hinv
        | apply ids_positive_update; [reflexivity | positive_tac Hinv] ].

Lemma step_ids_positive st e :
  ids_positive (customTests st) (nextTestId st) ->
  ids_positive (customTests (step st e)) (nextTestId (step st e)).
Proof.
  intros Hinv. unfold step. destruct (enabled st e); [| exact Hinv].
  destruct e; simpl;
    unfold handleFileChange, handleCreateValidation_settle,
      handleLoadValidation_settle, handleLoadValidation_loaded,
      onSubmitFollowUp_begin, handleTestSubmit_begin, handleTestSubmit_settle,
      confirmDelete_begin, confirmDelete_settle, handleDeleteTest_settle,
      handleGenerateReport_begin, handleGenerateReport_settle;
    split_match; positive_tac Hinv.
Qed.

Lemma reachable_ids_positive st :
  reachable st -> ids_positive (customTests st) (nextTestId st).
Proof.
  induction 1 as [| st e _ IH].
  - split; [reflexivity | intros t Hin; inversion Hin].
  - apply step_ids_positive, IH.
Qed.

(** In a reachable state every local id is at least 1, so the [test_id] of
    every execute-test request is truthy: the backend id of the test, or
    else its local id. *)
Theorem execute_test_requests_have_truthy_test_id st e req :
  reachable st -> req ∈ requests st e -> req_url req = "/execute-test" ->
  (forall t, t ∈ customTests st -> 1 <= Test.id t)
  /\ exists body,
       req_body req = JsonBody body
       /\ truthy (get_field "test_id" body) = true.
Proof.
  intros Hr Hin Hurl. destruct (reachable_ids_positive st Hr) as [_ Hpos].
  split; [exact Hpos |].
  unfold requests in Hin. destruct (enabled st e); [| inversion Hin].
  assert (Hsubmit : forall test fu s,
             test ∈ customTests st ->
             req ∈ option_list (snd (handleTestSubmit_begin st (Test.id test) fu s)) ->
             exists body,
               req_body req = JsonBody body
               /\ truthy (get_field "test_id" body) = true).
  { intros test fu s Htest Hreq. unfold handleTestSubmit_begin in Hreq.
    destruct (find_test (Test.id test) (customTests st)) as [found |];
      [| inversion Hreq].
    destruct (negb (truthy_prim (validationId st))); simpl in Hreq; [inversion Hreq |].
    apply list_elem_of_singleton in Hreq. subst req. simpl.
    eexists. split; [reflexivity |]. simpl. unfold prim_or.
    destruct (truthy_prim (Test.test_id found)) eqn:Hf; simpl; [exact Hf |].
    specialize (Hpos test Htest).
    destruct (Z.eqb_spec (Test.id test) 0); [lia | reflexivity]. }
  destruct e; try (inversion Hin; fail).
  - apply list_elem_of_singleton in Hin. subst req. discriminate Hurl.
  - apply list_elem_of_singleton in Hin. subst req. simpl in Hurl.
    exfalso. revert Hurl. generalize (loadValidationId st). intros s Hs.
    discriminate Hs.
  - destruct (customTests st !! index) as [test |] eqn:Hi; [| inversion Hin].
    eapply Hsubmit; [| exact Hin]. apply list_elem_of_lookup. eauto.
  - destruct (customTests st !! index) as [test |] eqn:Hi; [| inversion Hin].
    destruct (TestConversation.handleSubmit_begin conv).2; [| inversion Hin].
    unfold onSubmitFollowUp_begin in Hin.
    eapply Hsubmit; [| exact Hin]. apply list_elem_of_lookup. eauto.
  - unfold confirmDelete_begin in Hin. destruct (testToDelete st) as [T |]; [| inversion Hin].
    destruct (truthy_prim (Test.test_id T)) eqn:HT; [| inversion Hin].
    simpl in Hin. unfold handleDeleteTest_begin in Hin. rewrite HT in Hin. simpl in Hin.
    apply list_elem_of_singleton in Hin. subst req. simpl in Hurl.
    discriminate Hurl.
  - unfold handleGenerateReport_begin in Hin.
    destruct (negb (truthy_prim (validationId st))); [inversion Hin |].
    simpl in Hin. apply list_elem_of_singleton in Hin. subst req. simpl in Hurl.
    discriminate Hurl.
Qed.

Lemma execute_test_requests_have_truthy_test_id_witness :
  requests session_loaded_tab (ClickRunTest 0)
  = [{| req_method := "POST"; req_url := "/execute-test";
        req_body := JsonBody [("validation_id", JPrim (PStr "v1"));
                              ("test_id", JPrim (PStr "t-1"))] |}]
  /\ exists body,
       JsonBody [("validation_id", JPrim (PStr "v1")); ("test_id", JPrim (PStr "t-1"))]
       = JsonBody body
       /\ truthy (get_field "test_id" body) = true.
Proof.
  split; [reflexivity |].
  refine (proj2 (execute_test_requests_have_truthy_test_id session_loaded_tab
                   (ClickRunTest 0)
                   {| req_method := "POST"; req_url := "/execute-test";
                      req_body := JsonBody [("validation_id", JPrim (PStr "v1"));
                                            ("test_id", JPrim (PStr "t-1"))] |}
                   _ (list_elem_of_here _ _) eq_refl)).
  unfold session_loaded_tab, session_loaded. repeat apply reachable_step.
  apply reachable_initial.
Defined.

(** ** The message a follow-up sends *)

Lemma trimStart_unfold s :
  trimStart s = match leading_whitespace s with
                | Some rest => trimStart rest
                | None => s
                end.
Proof.
  destruct s as [| a [| b [| c r3]]]; simpl; try reflexivity.
  - destruct (whitespace1 a); reflexivity.
  - destruct (whitespace1 a); [reflexivity |]. destruct (whitespace2 a b); reflexivity.
  - destruct (whitespace1 a); [reflexivity |]. destruct (whitespace2 a b); [reflexivity |].
    destruct (whitespace3 a b c); reflexivity.
Qed.

Lemma all_whitespace_unfold s :
  all_whitespace s = match s with
                     | EmptyString => true
                     | _ => match leading_whitespace s with
                            | Some rest => all_whitespace rest
                            | None => false
                            end
                     end.
Proof.
  destruct s as [| a [| b [| c r3]]]; simpl; try reflexivity.
  - destruct (whitespace1 a); reflexivity.
  - destruct (whitespace1 a); [reflexivity |]. destruct (whitespace2 a b); reflexivity.
  - destruct (whitespace1 a); [reflexivity |]. destruct (whitespace2 a b); [reflexivity |].
    destruct (whitespace3 a b c); reflexivity.
Qed.

Lemma leading_whitespace_length s rest :
  leading_whitespace s = Some rest -> (String.length rest < String.length s)%nat.
Proof.
  destruct s as [| a [| b [| c r3]]]; simpl; try discriminate.
  - destruct (whitespace1 a); [| discriminate]. intros H. injection H as <-. simpl. lia.
  - destruct (whitespace1 a); [intros H; injection H as <-; simpl; lia |].
    destruct (whitespace2 a b); [| discriminate]. intros H. injection H as <-. simpl. lia.
  - destruct (whitespace1 a); [intros H; injection H as <-; simpl; lia |].
    destruct (whitespace2 a b); [intros H; injection H as <-; simpl; lia |].
    destruct (whitespace3 a b c); [| discriminate]. intros H. injection H as <-. simpl. lia.
Qed.

(** A leading white-space character is a prefix of one to three bytes. *)
Lemma leading_whitespace_Some s rest :
  leading_whitespace s = Some rest ->
  exists w, s = w +:+ rest /\ leading_whitespace w = Some EmptyString.
Proof.
  destruct s as [| a [| b [| c r3]]]; simpl; try discriminate.
  - destruct (whitespace1 a) eqn:H1; [| discriminate]. intros H. injection H as <-.
    exists (String a EmptyString). split; [reflexivity |]. simpl. rewrite H1. reflexivity.
  - destruct (whitespace1 a) eqn:H1.
    + intros H. injection H as <-. exists (String a EmptyString).
      split; [reflexivity |]. simpl. rewrite H1. reflexivity.
    + destruct (whitespace2 a b) eqn:H2; [| discriminate]. intros H. injection H as <-.
      exists (String a (String b EmptyString)). split; [reflexivity |].
      simpl. rewrite H1, H2. reflexivity.
  - destruct (whitespace1 a) eqn:H1.
    + intros H. injection H as <-. exists (String a EmptyString).
      split; [reflexivity |]. simpl. rewrite H1. reflexivity.
    + destruct (whitespace2 a b) eqn:H2.
      * intros H. injection H as <-. exists (String a (String b EmptyString)).
        split; [reflexivity |]. simpl. rewrite H1, H2. reflexivity.
      * destruct (whitespace3 a b c) eqn:H3; [| discriminate]. intros H. injection H as <-.
        exists (String a (String b (String c EmptyString))). split; [reflexivity |].
        simpl. rewrite H1, H2, H3. reflexivity.
Qed.

Lemma leading_whitespace_app w rest :
  leading_whitespace w = Some EmptyString -> leading_whitespace (w +:+ rest) = Some rest.
Proof.
  intros Hw. destruct w as [| a [| b [| c [| d r4]]]]; simpl in Hw; try discriminate Hw.
  - destruct (whitespace1 a) eqn:H1; [| discriminate Hw].
    change (leading_whitespace (String a rest) = Some rest). simpl. rewrite H1. reflexivity.
  - destruct (whitespace1 a) eqn:H1; [discriminate Hw |].
    destruct (whitespace2 a b) eqn:H2; [| discriminate Hw].
    change (leading_whitespace (String a (String b rest)) = Some rest).
    simpl. rewrite H1, H2. reflexivity.
  - destruct (whitespace1 a) eqn:H1; [discriminate Hw |].
    destruct (whitespace2 a b) eqn:H2; [discriminate Hw |].
    destruct (whitespace3 a b c) eqn:H3; [| discriminate Hw].
    change (leading_whitespace (String a (String b (String c rest))) = Some rest).
    simpl. rewrite H1, H2, H3. reflexivity.
  - destruct (whitespace1 a); [discriminate Hw |].
    destruct (whitespace2 a b); [discriminate Hw |].
    destruct (whitespace3 a b c); discriminate Hw.
Qed.

Lemma by_length (P : string -> Prop) :
  (forall s, (forall t, (String.length t < String.length s)%nat -> P t) -> P s) ->
  forall s, P s.
Proof.
  intros Hstep s. remember (String.length s) as n eqn:Hn.
  revert s Hn. induction n as [n IH] using lt_wf_ind. intros s ->.
  apply Hstep. intros t Ht. exact (IH _ Ht t eq_refl).
Qed.

Lemma trimStart_no_leading s : leading_whitespace (trimStart s) = None.
Proof.
  induction s as [s IH] using by_length. rewrite trimStart_unfold.
  destruct (leading_whitespace s) as [rest |] eqn:Hs; [| exact Hs].
  apply IH. apply leading_whitespace_length, Hs.
Qed.

Lemma all_whitespace_app w rest :
  leading_whitespace w = Some EmptyString ->
  all_whitespace (w +:+ rest) = all_whitespace rest.
Proof.
  intros Hw. rewrite all_whitespace_unfold. rewrite (leading_whitespace_app w rest Hw).
  destruct w; [discriminate Hw | reflexivity].
Qed.

(** What [trimStart] skips is white space. *)
Lemma trimStart_suffix s :
  exists skipped, s = skipped +:+ trimStart s /\ all_whitespace skipped = true.
Proof.
  induction s as [s IH] using by_length. rewrite trimStart_unfold.
  destruct (leading_whitespace s) as [rest |] eqn:Hs;
    [| exists EmptyString; split; reflexivity].
  destruct (IH rest (leading_whitespace_length _ _ Hs)) as (skipped & Hrest & Hws).
  apply leading_whitespace_Some in Hs as (w & -> & Hw).
  exists (w +:+ skipped). split.
  - rewrite append_assoc. f_equal. exact Hrest.
  - rewrite (all_whitespace_app w skipped Hw). exact Hws.
Qed.

Lemma trimEnd_decompose s :
  exists suffix, s = trimEnd s +:+ suffix /\ all_whitespace suffix = true.
Proof.
  induction s as [| a rest (suffix & IH & Hws)].
  - exists EmptyString. split; reflexivity.
  - cbn [trimEnd]. destruct (all_whitespace (String a rest)) eqn:Hall.
    + exists (String a rest). split; [reflexivity | exact Hall].
    + exists suffix. split; [| exact Hws].
      change (String a rest = String a (trimEnd rest +:+ suffix)). f_equal. exact IH.
Qed.

Lemma trimEnd_no_trailing s pre w :
  leading_whitespace w = Some EmptyString -> trimEnd s <> pre +:+ w.
Proof.
  intros Hw. revert pre. induction s as [| a rest IH]; intros pre H.
  - destruct pre; [| discriminate H]. change (EmptyString = w) in H. subst w.
    discriminate Hw.
  - cbn [trimEnd] in H. destruct (all_whitespace (String a rest)) eqn:Hall.
    + destruct pre; [| discriminate H]. change (EmptyString = w) in H. subst w.
      discriminate Hw.
    + destruct pre as [| p pre'].
      * change (String a (trimEnd rest) = w) in H.
        destruct (trimEnd_decompose rest) as (suffix & Hrest & Hws).
        assert (Hs : String a rest = w +:+ suffix).
        { rewrite <- H. change (String a rest = String a (trimEnd rest +:+ suffix)).
          f_equal. exact Hrest. }
        rewrite Hs, (all_whitespace_app w suffix Hw), Hws in Hall. discriminate Hall.
      * change (String a (trimEnd rest) = String p (pre' +:+ w)) in H.
        injection H as _ H. exact (IH pre' H).
Qed.

(** [trim] leaves no white-space character at either end. *)
Lemma trim_ends s :
  leading_whitespace (trim s) = None
  /\ (forall pre w, leading_whitespace w = Some EmptyString -> trim s <> pre +:+ w).
Proof.
  unfold trim. split; [apply trimStart_no_leading |].
  intros pre w Hw H. destruct (trimStart_suffix (trimEnd s)) as (skipped & Hs & _).
  apply (trimEnd_no_trailing s (skipped +:+ pre) w Hw).
  rewrite Hs at 1. rewrite H. symmetry. apply append_assoc.
Qed.

(** [trim] removes white space only. *)
Lemma trim_removes_whitespace s :
  exists skipped trailing,
    s = skipped +:+ trim s +:+ trailing
    /\ all_whitespace skipped = true /\ all_whitespace trailing = true.
Proof.
  unfold trim. destruct (trimEnd_decompose s) as (trailing & Hs & Htrailing).
  destruct (trimStart_suffix (trimEnd s)) as (skipped & Hskipped & Hws).
  exists skipped, trailing. split; [| split; assumption].
  rewrite <- append_assoc, <- Hskipped. exact Hs.
Qed.

(** A text of white space only trims to the empty string. *)
Lemma trim_all_whitespace s : all_whitespace s = true -> trim s = EmptyString.
Proof.
  intros H. unfold trim. destruct s as [| a rest]; [reflexivity |].
  cbn [trimEnd]. rewrite H. reflexivity.
Qed.

(** The code points beyond ASCII that [trim] removes: no-break space
    (U+00A0), ideographic space (U+3000), the byte order mark (U+FEFF) and
    the line separator (U+2028), in UTF-8. *)
Example trim_unicode :
  trim (String "194" (String "160" ("fix" +:+ String "227" (String "128" (String "128" " ")))))
  = "fix"
  /\ trim (String "227" (String "128" (String "128" EmptyString))) = EmptyString
  /\ trim (String "239" (String "187" (String "191"
              (String "226" (String "128" (String "168" "x"))))))
     = "x".
Proof. repeat split. Qed.

(** A field holding one ideographic space (U+3000), or one no-break space
    (U+00A0), has its button disabled and sends nothing. *)
Example follow_up_unicode_blank :
  TestConversation.send_disabled
    (TestConversation.mk (String "227" (String "128" (String "128" EmptyString))) false)
  = true
  /\ snd (TestConversation.handleSubmit_begin
            (TestConversation.mk (String "227" (String "128" (String "128" EmptyString)))
               false))
     = None
  /\ TestConversation.send_disabled
       (TestConversation.mk (String "194" (String "160" EmptyString)) false)
     = true.
Proof. repeat split. Qed.

(** When [handleSubmit] hands a message to the callback, the message is the
    text of the field without the white space at its two ends (white space
    as [String.prototype.trim] has it: tab to carriage return, space, the no-break
    space, the byte order mark, the line and paragraph separators and the
    space separators of Unicode): what was cut off at either end is white
    space only, the message is not empty and neither starts nor ends with a
    white-space character, and the field did not consist of white space
    only; the field keeps its text and is marked as submitting, which
    disables the textarea and the button. *)
Theorem follow_up_message_without_outer_whitespace conv conv' message :
  TestConversation.handleSubmit_begin conv = (conv', Some message) ->
  message = trim (TestConversation.followUpMessage conv)
  /\ (exists skipped trailing,
        TestConversation.followUpMessage conv = skipped +:+ message +:+ trailing
        /\ all_whitespace skipped = true /\ all_whitespace trailing = true)
  /\ message <> EmptyString
  /\ all_whitespace (TestConversation.followUpMessage conv) = false
  /\ leading_whitespace message = None
  /\ (forall pre w, leading_whitespace w = Some EmptyString -> message <> pre +:+ w)
  /\ TestConversation.followUpMessage conv' = TestConversation.followUpMessage conv
  /\ TestConversation.textarea_disabled conv' = true
  /\ TestConversation.send_disabled conv' = true.
Proof.
  intros H. destruct (handleSubmit_sends_trimmed conv conv' message H) as [Hm Hne].
  destruct (trim_ends (TestConversation.followUpMessage conv)) as [Hhead Hlast].
  split; [exact Hm |]. rewrite Hm in Hne |- *.
  split; [apply trim_removes_whitespace |]. split; [exact Hne |].
  split.
  { destruct (all_whitespace (TestConversation.followUpMessage conv)) eqn:Hall;
      [| reflexivity].
    exfalso. apply Hne, trim_all_whitespace, Hall. }
  split; [exact Hhead |]. split; [exact Hlast |].
  unfold TestConversation.handleSubmit_begin in H.
  destruct (negb _); [discriminate H |]. injection H as <- _.
  split; [reflexivity |]. split; [reflexivity |].
  unfold TestConversation.send_disabled. apply orb_true_r.
Qed.

Lemma follow_up_message_without_outer_whitespace_witness :
  TestConversation.handleSubmit_begin
    (TestConversation.mk (String "194" (String "160" " fix the plot ")) false)
  = (TestConversation.mk (String "194" (String "160" " fix the plot ")) true,
     Some "fix the plot")
  /\ "fix the plot" = trim (String "194" (String "160" " fix the plot ")).
Proof.
  split; [reflexivity |].
  exact (proj1 (follow_up_message_without_outer_whitespace
                  (TestConversation.mk (String "194" (String "160" " fix the plot ")) false)
                  (TestConversation.mk (String "194" (String "160" " fix the plot ")) true)
                  "fix the plot" eq_refl)).
Defined.

(** The submit button of the follow-up form is enabled exactly when the
    form is not submitting and [handleSubmit] would send a message. *)
Theorem follow_up_button_matches_handler conv :
  TestConversation.send_disabled conv = false
  <-> TestConversation.submitting conv = false
      /\ exists conv' message,
           TestConversation.handleSubmit_begin conv = (conv', Some message).
Proof.
  unfold TestConversation.send_disabled, TestConversation.handleSubmit_begin.
  destruct (negb (truthy_prim (PStr (trim (TestConversation.followUpMessage conv)))));
    destruct (TestConversation.submitting conv); simpl; split.
  all: try (intros H; discriminate H).
  all: try (intros [H _]; discriminate H).
  - intros [_ (conv' & message & H)]. discriminate H.
  - intros _. split; [reflexivity |]. eauto.
  - intros _. reflexivity.
Qed.

Lemma follow_up_button_matches_handler_witness :
  TestConversation.send_disabled (TestConversation.mk "fix" false) = false
  /\ TestConversation.submitting (TestConversation.mk "fix" false) = false.
Proof.
  split; [reflexivity |].
  exact (proj1 (proj1 (follow_up_button_matches_handler
                         (TestConversation.mk "fix" false)) eq_refl)).
Defined.

(** Submitting an enabled follow-up form hands over a message and leaves
    the form disabled. *)
Lemma handleSubmit_begin_when_enabled conv :
  TestConversation.send_disabled conv = false ->
  exists conv' message,
    TestConversation.handleSubmit_begin conv = (conv', Some message)
    /\ TestConversation.send_disabled conv' = true.
Proof.
  unfold TestConversation.send_disabled, TestConversation.handleSubmit_begin.
  destruct (negb (truthy_prim (PStr (trim (TestConversation.followUpMessage conv)))));
    simpl; intros H; [discriminate H |].
  eexists _, _. split; [reflexivity |]. simpl. apply orb_true_r.
Qed.

(** While a follow-up is being sent neither Run Test nor a second follow-up
    can be started from the form that sent it. *)
Theorem follow_up_in_flight_locks_controls st i T conv :
  customTests st !! i = Some T ->
  enabled st (SubmitFollowUp i conv) = true ->
  let st1 := step st (SubmitFollowUp i conv) in
  let conv1 := fst (TestConversation.handleSubmit_begin conv) in
  (exists T1, customTests st1 !! i = Some T1 /\ Test.isProcessing T1 = true)
  /\ enabled st1 (ClickRunTest i) = false
  /\ enabled st1 (SubmitFollowUp i conv1) = false
  /\ requests st1 (ClickRunTest i) = []
  /\ requests st1 (SubmitFollowUp i conv1) = [].
Proof.
  intros Hi Hen st1 conv1.
  pose proof Hen as Hen'. unfold enabled in Hen'. rewrite Hi in Hen'.
  apply andb_prop in Hen' as [Htab Hrest]. apply andb_prop in Hrest as [_ Hsend].
  apply negb_true_iff in Hsend.
  apply handleSubmit_begin_when_enabled in Hsend as (conv' & message & Hbegin & Hoff).
  assert (Hconv1 : conv1 = conv') by (subst conv1; rewrite Hbegin; reflexivity).
  assert (Hproc : exists T1, customTests st1 !! i = Some T1
                             /\ Test.isProcessing T1 = true /\ Test.id T1 = Test.id T).
  { subst st1. unfold step. rewrite Hen. unfold handle. rewrite Hi, Hbegin. simpl snd.
    unfold onSubmitFollowUp_begin, handleTestSubmit_begin.
    destruct (find_test (Test.id T) (customTests st)); simpl.
    - destruct (negb (truthy_prim (validationId st))); simpl.
      + exists (spread_followUp_processing T). split; [| split; reflexivity].
        apply update_test_hit; [exact Hi | reflexivity].
      + exists (spread_processing (spread_followUp_processing T)).
        split; [| split; reflexivity].
        apply update_test_hit; [| reflexivity].
        apply update_test_hit; [exact Hi | reflexivity].
    - exists (spread_followUp_processing T). split; [| split; reflexivity].
      apply update_test_hit; [exact Hi | reflexivity]. }
  destruct Hproc as (T1 & HT1 & Hp & Hid).
  assert (Hrun : enabled st1 (ClickRunTest i) = false).
  { unfold enabled. rewrite HT1. unfold runTest_disabled. rewrite Hp. simpl.
    apply andb_false_r. }
  assert (Hfu : enabled st1 (SubmitFollowUp i conv1) = false).
  { unfold enabled. rewrite HT1, Hconv1, Hoff. simpl.
    rewrite andb_false_r. apply andb_false_r. }
  split; [eauto |]. split; [exact Hrun |]. split; [exact Hfu |].
  unfold requests. rewrite Hrun, Hfu. split; reflexivity.
Qed.

Lemma follow_up_in_flight_locks_controls_witness :
  enabled session_loaded_tab (SubmitFollowUp 0 (TestConversation.mk "fix" false)) = true
  /\ enabled (step session_loaded_tab
                (SubmitFollowUp 0 (TestConversation.mk "fix" false)))
       (ClickRunTest 0) = false.
Proof.
  split; [reflexivity |].
  pose proof (follow_up_in_flight_locks_controls session_loaded_tab 0 completedTest
                (TestConversation.mk "fix" false) eq_refl eq_refl)
    as (_ & Hrun & _).
  exact Hrun.
Defined.

(** ** Images and code blocks of the results *)

Lemma string_length_append (a b : string) :
  String.length (a +:+ b) = (String.length a + String.length b)%nat.
Proof.
  induction a as [| c a IH]; [reflexivity |].
  change (S (String.length (a +:+ b)) = S (String.length a + String.length b)).
  f_equal. exact IH.
Qed.

Lemma imageErrors_after (urls : list string) (imageErrors : gmap string bool)
    (src : string) :
  TestResultRenderer.imageError_read
    (fold_left (fun errs url => TestResultRenderer.handleImageError url errs) urls
       imageErrors) src
  = bool_decide (src ∈ urls) || TestResultRenderer.imageError_read imageErrors src.
Proof.
  revert imageErrors. induction urls as [| url urls IH]; intros imageErrors.
  - reflexivity.
  - simpl. rewrite IH.
    unfold TestResultRenderer.handleImageError, TestResultRenderer.imageError_read.
    destruct (decide (url = src)) as [-> | Hne].
    + rewrite lookup_insert_eq. cbn [default]. rewrite orb_true_r.
      rewrite bool_decide_eq_true_2 by apply list_elem_of_here. reflexivity.
    + rewrite lookup_insert_ne by exact Hne. f_equal.
      apply bool_decide_ext. rewrite elem_of_cons. split; [auto |].
      intros [He | Hin]; [congruence | exact Hin].
Qed.

(** An image whose loading failed once is drawn as the error notice from
    then on, whatever other images fail later; the other images are drawn
    as before. *)
Theorem failed_image_stays_failed (urls : list string)
    (imageErrors : gmap string bool) (src : string) (alt : json) :
  TestResultRenderer.img
    (fold_left (fun errs url => TestResultRenderer.handleImageError url errs) urls
       imageErrors) src alt
  = if bool_decide (src ∈ urls) then TestResultRenderer.ImageError alt
    else TestResultRenderer.img imageErrors src alt.
Proof.
  unfold TestResultRenderer.img. rewrite imageErrors_after.
  destruct (bool_decide (src ∈ urls)); reflexivity.
Qed.

Lemma strip_prefix_app (pattern rest : string) :
  TestResultRenderer.strip_prefix pattern (pattern +:+ rest) = Some rest.
Proof.
  induction pattern as [| a pattern IH]; [destruct rest; reflexivity |].
  change (TestResultRenderer.strip_prefix (String a pattern)
            (String a (pattern +:+ rest)) = Some rest).
  simpl. rewrite Ascii.eqb_refl. exact IH.
Qed.

Lemma strip_prefix_Some (pattern s rest : string) :
  TestResultRenderer.strip_prefix pattern s = Some rest -> s = pattern +:+ rest.
Proof.
  revert s. induction pattern as [| a pattern IH]; intros s H.
  - destruct s; injection H as <-; reflexivity.
  - destruct s as [| b s]; [discriminate H |]. simpl in H.
    destruct (Ascii.eqb_spec a b) as [<- | _]; [| discriminate H].
    change (String a s = String a (pattern +:+ rest)). f_equal. apply IH, H.
Qed.

Lemma replace_absent (pattern replacement s : string) :
  ~ contains pattern s -> TestResultRenderer.replace pattern replacement s = s.
Proof.
  induction s as [| c s IH]; intros Hno.
  - simpl. destruct (TestResultRenderer.strip_prefix pattern EmptyString) as [rest |] eqn:Hp;
      [| reflexivity].
    exfalso. apply Hno. apply strip_prefix_Some in Hp.
    exists EmptyString, rest. exact Hp.
  - simpl. destruct (TestResultRenderer.strip_prefix pattern (String c s)) as [rest |] eqn:Hp.
    + exfalso. apply Hno. apply strip_prefix_Some in Hp.
      exists EmptyString, rest. exact Hp.
    + f_equal. apply IH. intros Hc. apply Hno. apply contains_cons. exact Hc.
Qed.

(** A fenced block of class [language-<lang>] is highlighted as [<lang>];
    a block without a class as [text]; a class that does not contain
    [language-] is taken as the language as it is. *)
Theorem code_block_language (lang name children : string) :
  TestResultRenderer.code false (Some ("language-" +:+ lang)) children
  = TestResultRenderer.Highlighted lang children
  /\ TestResultRenderer.code false None children
     = TestResultRenderer.Highlighted "text" children
  /\ TestResultRenderer.code false (Some "") children
     = TestResultRenderer.Highlighted "text" children
  /\ (~ contains "language-" name -> name <> "" ->
      TestResultRenderer.code false (Some name) children
      = TestResultRenderer.Highlighted name children).
Proof.
  split; [| split; [reflexivity | split; [reflexivity |]]].
  - unfold TestResultRenderer.code.
    change (truthy_prim (PStr ("language-" +:+ lang))) with true. cbv iota.
    reflexivity.
  - intros Hno Hne. unfold TestResultRenderer.code. simpl.
    destruct (String.eqb_spec name "") as [He | _]; [contradiction |]. simpl.
    f_equal. apply replace_absent, Hno.
Qed.

Lemma code_block_language_witness :
  (~ contains "language-" "python" /\ "python" <> "")
  /\ TestResultRenderer.code false (Some "python") "x = 1"
     = TestResultRenderer.Highlighted "python" "x = 1".
Proof.
  assert (Hno : ~ contains "language-" "python").
  { intros (before & after & H). apply (f_equal String.length) in H.
    rewrite !string_length_append in H. simpl in H. lia. }
  split; [split; [exact Hno | discriminate] |].
  apply (proj2 (proj2 (proj2 (code_block_language "" "python" "x = 1"))));
    [exact Hno | discriminate].
Defined.

(** ** The menus *)

Lemma dropdown_run_app (isOpen : bool) (es es' : list DropdownMenu.event) :
  DropdownMenu.run isOpen (es ++ es')
  = DropdownMenu.run (DropdownMenu.run isOpen es) es'.
Proof. unfold DropdownMenu.run. apply fold_left_app. Qed.

Lemma dropdown_run_no_outside (isOpen : bool) (es : list DropdownMenu.event) :
  forallb (fun e => negb (DropdownMenu.is_outside e)) es = true ->
  DropdownMenu.run isOpen es
  = xorb isOpen (Nat.odd (length (List.filter DropdownMenu.is_trigger_click es))).
Proof.
  revert isOpen. induction es as [| e es IH]; intros isOpen Hall.
  - simpl. destruct isOpen; reflexivity.
  - simpl in Hall. apply andb_prop in Hall as [He Hall].
    change (DropdownMenu.run isOpen (e :: es))
      with (DropdownMenu.run (DropdownMenu.handle isOpen e) es).
    rewrite (IH _ Hall). destruct e; simpl in *.
    + rewrite Nat.odd_succ, <- Nat.negb_odd. destruct isOpen, (Nat.odd _); reflexivity.
    + discriminate He.
    + reflexivity.
Qed.

(** A [mousedown] outside closes the menu whatever happened before; after
    it the menu is open exactly when the trigger was clicked an odd number
    of times, and choosing an item does not close it. *)
Theorem dropdown_open_after (isOpen : bool) (before after : list DropdownMenu.event) :
  forallb (fun e => negb (DropdownMenu.is_outside e)) after = true ->
  DropdownMenu.content_rendered
    (DropdownMenu.run isOpen (before ++ DropdownMenu.MouseDownOutside :: after))
  = Nat.odd (length (List.filter DropdownMenu.is_trigger_click after)).
Proof.
  intros Hall. unfold DropdownMenu.content_rendered.
  rewrite dropdown_run_app.
  change (DropdownMenu.run ?b (DropdownMenu.MouseDownOutside :: after))
    with (DropdownMenu.run false after).
  rewrite (dropdown_run_no_outside _ _ Hall). reflexivity.
Qed.

Lemma dropdown_open_after_witness :
  DropdownMenu.content_rendered
    (DropdownMenu.run true
       ([DropdownMenu.TriggerClick] ++ DropdownMenu.MouseDownOutside
        :: [DropdownMenu.TriggerClick; DropdownMenu.MouseDownInside]))
  = true.
Proof.
  apply (dropdown_open_after true [DropdownMenu.TriggerClick]
           [DropdownMenu.TriggerClick; DropdownMenu.MouseDownInside]).
  reflexivity.
Defined.
